(** * code-escalator: the MCP dispatcher and the get_help tool

    A shallow embedding of [main.go] (the JSON-RPC dispatcher, the stdio
    loop and the legacy HTTP handler) and of [gethelp.go] (argument
    checking, prompt assembly and the retrying OpenAI call), followed by
    the properties proved about them.

    Conventions.
    - Go's [int] and [time.Duration] are [Z]; a [string] is a byte string,
      so Go's [len] is [String.length].
    - A Go value of type [interface{}] is a [value]; a nil interface held
      in a struct field is [None].
    - [map[string]T] is [gmap string T].
    - A Go function with results [(T, error)] returns a pair whose second
      component is [option error] ([None] is the nil error).
    - Everything a function does to the outside (clock, file system,
      environment, the remote API, the log) goes through [World]; a
      computation is a function from the world to an outcome, which is a
      value or a panic, and the next world. *)

From Stdlib Require Import ZArith String Ascii List Bool Lia.
From stdpp Require Import base option list gmap strings.

Set Warnings "-register-all".
Local Open Scope string_scope.
Local Open Scope Z_scope.

(* ===================================================================== *)
(** ** Dynamic values, errors and time *)
(* ===================================================================== *)

(** What an [interface{}] holds after [encoding/json] decoded into it, and
    what the handlers build by hand: nil, bool, number, string, slice, map.
    The payload of a number is kept opaque (its IEEE bits); no code of this
    program computes with one. *)
Inductive value : Type :=
| VNil
| VBool (b : bool)
| VNumber (bits : Z)
| VInt (n : Z)
| VString (s : string)
| VArray (items : list value)
| VObject (fields : gmap string value).

(** The [error] values this program creates or receives. *)
Inductive error : Type :=
| errorString (msg : string)                      (* fmt.Errorf, errors.New *)
| APIError (HTTPStatusCode : Z) (Message : string) (* *openai.APIError *)
| DeadlineExceeded                                 (* context.DeadlineExceeded *)
| PathError (Op Path Err : string)                 (* *fs.PathError *)
| SyntaxError (msg : string)                       (* *json.SyntaxError *)
| UnmarshalTypeError (Value Field : string).       (* *json.UnmarshalTypeError *)

Definition Time := Z.
Definition Duration := Z.

Definition Nanosecond : Duration := 1.
Definition Microsecond : Duration := 1000 * Nanosecond.
Definition Millisecond : Duration := 1000 * Microsecond.
Definition Second : Duration := 1000 * Millisecond.
Definition Minute : Duration := 60 * Second.

(** [context.Context], as far as this program uses it: an optional
    deadline. *)
Record Context := mkContext { Deadline : option Time }.

Definition context_Background : Context := {| Deadline := None |}.

(* ===================================================================== *)
(** ** The openai client, seen from the caller *)
(* ===================================================================== *)

Record ChatCompletionMessage := mkMessage { Role : string; Content : string }.

Record ChatCompletionRequest :=
  mkChatRequest { Model : string; Messages : list ChatCompletionMessage }.

Record ChatCompletionChoice := mkChoice { Message : ChatCompletionMessage }.

Record ChatCompletionResponse := mkChatResponse { Choices : list ChatCompletionChoice }.

Record Client := mkClient { authToken : string }.

Definition ChatMessageRoleUser : string := "user".

Definition openai_NewClient (authToken : string) : Client := {| authToken := authToken |}.

(** The remote service is a stub the world carries: given how many calls
    were made before, the time the call starts, the context, the client
    and the request, it says how long the call takes and how it ends. *)
Definition Upstream : Type :=
  nat -> Time -> Context -> Client -> ChatCompletionRequest ->
  Duration * (error + ChatCompletionResponse).

(* ===================================================================== *)
(** ** The world and the computation monad *)
(* ===================================================================== *)

(** Arguments of a [log.Printf] call, kept unrendered. *)
Inductive LogArg : Type :=
| LStr (s : string)
| LInt (n : Z)
| LErr (e : error)
| LTime (t : Time).

Record LogRecord := mkLog { logFormat : string; logArgs : list LogArg }.

(** A file as [os.Open] hands it out: what [io.ReadAll] will return. *)
Definition File : Type := (error + string)%type.

Record World := mkWorld {
  now : Time;                              (* the clock *)
  files : string -> error + File;          (* os.Open by path *)
  environ : string -> string;              (* os.Getenv *)
  upstream : Upstream;                     (* the remote API *)
  opened : list string;                    (* paths passed to os.Open *)
  requests : list (Time * ChatCompletionRequest); (* upstream calls made *)
  slept : list (Time * Duration);          (* time.Sleep calls: start, length *)
  logged : list LogRecord                  (* log output *)
}.

Inductive Outcome (A : Type) : Type :=
| Ok (a : A)
| Panic (msg : string).

Arguments Ok {A} a.
Arguments Panic {A} msg.

Definition M (A : Type) : Type := World -> Outcome A * World.

Definition ret {A} (a : A) : M A := fun w => (Ok a, w).

Definition bind {A B} (c : M A) (k : A -> M B) : M B :=
  fun w => match c w with
           | (Ok a, w') => k a w'
           | (Panic msg, w') => (Panic msg, w')
           end.

Definition panic {A} (msg : string) : M A := fun w => (Panic msg, w).

Declare Scope go_scope.
Delimit Scope go_scope with go.

Notation "'let*' x ':=' c 'in' k" := (bind c (fun x => k))
  (at level 10, x name, c at level 100, k at level 200) : go_scope.
Notation "'let*' ' p ':=' c 'in' k" := (bind c (fun x => match x with p => k end))
  (at level 10, p strict pattern, c at level 100, k at level 200) : go_scope.
Notation "c ';;;' k" := (bind c (fun _ => k))
  (at level 100, k at level 200, right associativity) : go_scope.

Local Open Scope go_scope.

(** *** Effects *)

Definition time_Now : M Time := fun w => (Ok (now w), w).

Definition time_Sleep (d : Duration) : M unit := fun w =>
  (Ok tt,
   {| now := now w + Z.max 0 d; files := files w; environ := environ w;
      upstream := upstream w; opened := opened w; requests := requests w;
      slept := slept w ++ [(now w, d)]; logged := logged w |}).

Definition log_Printf (format : string) (args : list LogArg) : M unit := fun w =>
  (Ok tt,
   {| now := now w; files := files w; environ := environ w;
      upstream := upstream w; opened := opened w; requests := requests w;
      slept := slept w;
      logged := logged w ++ [{| logFormat := format; logArgs := args |}] |}).

Definition log_Println (msg : string) : M unit := log_Printf msg [].

Definition os_Getenv (key : string) : M string := fun w => (Ok (environ w key), w).

Definition os_Open (path : string) : M (error + File) := fun w =>
  (Ok (files w path),
   {| now := now w; files := files w; environ := environ w;
      upstream := upstream w; opened := opened w ++ [path];
      requests := requests w; slept := slept w; logged := logged w |}).

Definition io_ReadAll (f : File) : error + string := f.

Definition context_WithTimeout (parent : Context) (timeout : Duration) : M Context :=
  fun w =>
    let d := now w + timeout in
    (Ok {| Deadline := Some (match Deadline parent with
                             | Some p => Z.min p d
                             | None => d
                             end) |}, w).

(** [client.CreateChatCompletion(ctx, req)]: asks the stub, lets the time
    of the call pass and records the call.  On an error the response is
    the zero value, as in Go. *)
Definition CreateChatCompletion (client : Client) (ctx : Context)
    (req : ChatCompletionRequest) : M (ChatCompletionResponse * option error) :=
  fun w =>
    let out := upstream w (length (requests w)) (now w) ctx client req in
    (Ok (match out.2 with
         | inl e => ({| Choices := [] |}, Some e)
         | inr resp => (resp, None)
         end),
     {| now := now w + out.1; files := files w; environ := environ w;
        upstream := upstream w; opened := opened w;
        requests := requests w ++ [(now w, req)];
        slept := slept w; logged := logged w |}).

(** *** Control flow *)

(** [l[i]] on a slice: panics out of range. *)
Definition index {A} (l : list A) (i : nat) : M A :=
  match l !! i with
  | Some x => ret x
  | None => panic "index out of range"
  end.

(** What one pass through a loop body decides. *)
Inductive LoopStep (A : Type) : Type :=
| Continue
| Return (a : A).

Arguments Continue {A}.
Arguments Return {A} a.

(** [for i := range n { body }; after]: the body runs for i = 0 .. n-1,
    a [Return] leaves the function, and [after] is the code behind the
    loop. *)
Fixpoint forEach {A} (indices : list nat) (body : nat -> M (LoopStep A))
    (after : M A) : M A :=
  match indices with
  | [] => after
  | i :: rest =>
      let* step := body i in
      match step with
      | Continue => forEach rest body after
      | Return a => ret a
      end
  end.

Definition forRange {A} (n : nat) (body : nat -> M (LoopStep A)) (after : M A) : M A :=
  forEach (seq 0 n) body after.

(* ===================================================================== *)
(** ** gethelp.go *)
(* ===================================================================== *)

(** *** fmt.Sprintf, for the verbs the program's templates use *)

Definition nl : string := String (ascii_of_nat 10) EmptyString.

(** [%s] takes the next operand as it is, [%%] is a percent sign; a [%s]
    without operand prints Go's marker for it.  Other verbs do not occur
    in a format this model renders; they are copied. *)
Fixpoint Sprintf (format : string) (args : list string) : string :=
  match format with
  | EmptyString => EmptyString
  | String "%" (String "s" rest) =>
      match args with
      | a :: args' => a ++ Sprintf rest args'
      | [] => "%!s(MISSING)" ++ Sprintf rest []
      end
  | String "%" (String "%" rest) => String "%" (Sprintf rest args)
  | String c rest => String c (Sprintf rest args)
  end%string.

Definition len (s : string) : Z := Z.of_nat (String.length s).

(** *** The tool *)

Record GetHelpTool := mkGetHelpTool { summaryPath : string; modelName : string }.

Definition NewGetHelpTool (summaryPath modelName : string) : GetHelpTool :=
  {| summaryPath := summaryPath; modelName := modelName |}.

Definition GetHelpTool_Name (t : GetHelpTool) : string := "get_help".

Definition GetHelpTool_Description (t : GetHelpTool) : string :=
  "Escalate difficult problems to OpenAI for expert guidance".

Definition stringProperty (description : string) : value :=
  VObject {[ "type" := VString "string"; "description" := VString description ]}.

Definition GetHelpTool_Schema (t : GetHelpTool) : gmap string value :=
  {[ "type" := VString "object";
     "properties" := VObject
       {[ "question" := stringProperty "The specific question or problem you need help with";
          "summary" := stringProperty "Brief summary of your project context";
          "relevant_code" := stringProperty "Any relevant code snippets (optional)" ]};
     "required" := VArray [VString "question"; VString "summary"] ]}.

(** [v, ok := x.(string)] on the result of a map lookup: an absent key is
    the nil interface, and only a string passes. *)
Definition assertString (x : option value) : string * bool :=
  match x with
  | Some (VString s) => (s, true)
  | _ => ("", false)
  end.

(** A content block [{"type": "text", "text": text}]. *)
Definition textBlock (text : string) : gmap string value :=
  {[ "type" := VString "text"; "text" := VString text ]}.

Definition unavailableText : string :=
  "The architect is currently unavailable. Please try again later.".

Definition loadSummary (t : GetHelpTool) : M (string * option error) :=
  let path := if String.eqb (summaryPath t) "" then "./README.md" else summaryPath t in
  let* r := os_Open path in
  match r with
  | inl err => ret ("", Some err)
  | inr file =>
      match io_ReadAll file with
      | inl err => ret ("", Some err)
      | inr content => ret (content, None)
      end
  end.

Definition promptTemplate : string :=
  "As a software architect, provide help with this issue:" ++ nl ++
  nl ++
  "<summary>" ++ nl ++
  "%s" ++ nl ++
  "</summary>" ++ nl ++
  nl ++
  "---" ++ nl ++
  "**Question:** %s" ++ nl ++
  nl ++
  "**Relevant Code:** %s".

Definition buildPrompt (t : GetHelpTool) (summary question relevantCode : string)
    : string * option error :=
  let prompt := Sprintf promptTemplate [summary; question; relevantCode] in
  if 80000 <? len prompt
  then ("", Some (errorString "prompt exceeds 20,000 token limit"))
  else (prompt, None).

Definition askOpenAI (t : GetHelpTool) (ctx : Context) (prompt : string)
    : M (string * option error) :=
  let* key := os_Getenv "OPENAI_API_KEY" in
  let client := openai_NewClient key in
  let maxRetries : nat := 3%nat in
  let backoffDurations := [2 * Second; 4 * Second; 8 * Second] in
  let model := if String.eqb (modelName t) "" then "o3" else modelName t in
  forRange maxRetries
    (fun attempt =>
       let* '(resp, err) :=
         CreateChatCompletion client ctx
           {| Model := model;
              Messages := [{| Role := ChatMessageRoleUser; Content := prompt |}] |} in
       match err with
       | Some e =>
           if (attempt <? maxRetries - 1)%nat
           then
             let* d := index backoffDurations attempt in
             time_Sleep d ;;;
             ret Continue
           else ret (Return ("", Some e))
       | None =>
           match Choices resp with
           | [] => ret (Return ("", Some (errorString "no response from OpenAI")))
           | c :: _ => ret (Return (Content (Message c), None))
           end
       end)
    (ret ("", Some (errorString "max retries exceeded"))).

Definition GetHelpTool_Call (t : GetHelpTool) (arguments : gmap string value)
    : M (list (gmap string value) * option error) :=
  let question := match assertString (arguments !! "question") with
                  | (q, true) => q | (_, false) => "" end in
  let summary := match assertString (arguments !! "summary") with
                 | (s, true) => s | (_, false) => "" end in
  let relevantCode := match assertString (arguments !! "relevant_code") with
                      | (rc, true) => rc | (_, false) => "" end in
  if String.eqb question "" || String.eqb summary ""
  then ret ([textBlock "Error: Missing required fields: question and summary"],
            Some (errorString "missing required fields"))
  else
    let* '(projectSummary, err) := loadSummary t in
    match err with
    | Some e =>
        log_Printf "Couldn't load the summary file: %v" [LErr e] ;;;
        ret ([textBlock unavailableText], Some e)
    | None =>
        let '(prompt, err) := buildPrompt t projectSummary question relevantCode in
        match err with
        | Some e =>
            log_Printf "Couldn't build the prompt: %v" [LErr e] ;;;
            ret ([textBlock unavailableText], Some e)
        | None =>
            log_Println "Ready to call OpenAI" ;;;
            let* ctx := context_WithTimeout context_Background (3 * Minute) in
            let* '(answer, err) := askOpenAI t ctx prompt in
            match err with
            | Some e =>
                log_Printf "OpenAI call failed: %v" [LErr e] ;;;
                ret ([textBlock unavailableText], Some e)
            | None =>
                let* t0 := time_Now in
                log_Printf "[%s] OpenAI call completed successfully" [LTime t0] ;;;
                ret ([textBlock answer], None)
            end
        end
    end.

(* ===================================================================== *)
(** ** main.go *)
(* ===================================================================== *)

(** The [Tool] interface: a dictionary of its four methods. *)
Record Tool := mkTool {
  Name : string;
  Description : string;
  Schema : gmap string value;
  Call : gmap string value -> M (list (gmap string value) * option error)
}.

(** [*GetHelpTool] implements [Tool]. *)
Definition GetHelpTool_Tool (t : GetHelpTool) : Tool :=
  {| Name := GetHelpTool_Name t;
     Description := GetHelpTool_Description t;
     Schema := GetHelpTool_Schema t;
     Call := GetHelpTool_Call t |}.

Definition RawMessage : Type := string.

Module JsonRPCRequest.
Record t := mk {
  Jsonrpc : string;
  ID : Z;
  Method : string;
  Params : RawMessage
}.
End JsonRPCRequest.

(** [Result] and [Error] have type [interface{}]: [None] is the nil
    interface, which [omitempty] leaves out of the encoding. *)
Module JsonRPCResponse.
Record t := mk {
  Jsonrpc : string;
  ID : Z;
  Result : option value;
  Error : option value
}.
End JsonRPCResponse.

Record MCPServer := mkServer {
  tools : gmap string Tool;
  serverInfo : gmap string string
}.

Definition NewMCPServer (name version : string) : MCPServer :=
  {| tools := ∅;
     serverInfo := {[ "name" := name; "version" := version ]} |}.

Definition RegisterTool (s : MCPServer) (tool : Tool) : MCPServer :=
  {| tools := <[Name tool := tool]> (tools s); serverInfo := serverInfo s |}.

Definition HandleInitialize (s : MCPServer) : gmap string value :=
  {[ "protocolVersion" := VString "2025-03-26";
     "capabilities" := VObject {[ "tools" := VObject ∅ ]};
     "serverInfo" := VObject (VString <$> serverInfo s) ]}.

(** Go ranges over the map in an unspecified order; the model takes the
    order of [map_to_list]. *)
Definition HandleToolsList (s : MCPServer) : gmap string value :=
  {[ "tools" :=
       VArray ((fun entry : string * Tool =>
                  VObject {[ "name" := VString (Name entry.2);
                             "description" := VString (Description entry.2);
                             "inputSchema" := VObject (Schema entry.2) ]})
               <$> map_to_list (tools s)) ]}.

(** The anonymous struct [HandleToolsCall] decodes into. *)
Record callParams := mkCallParams {
  cp_Name : string;
  cp_Arguments : gmap string value
}.

(** How a [[]map[string]interface{}] sits in a result map. *)
Definition contentValue (content : list (gmap string value)) : value :=
  VArray (VObject <$> content).

(** [net/http], as far as the handler uses it. *)
Module http.
Record Request := mkRequest { Method : string; Body : string }.

(** [status] is [None] until a header is written; a handler that
    returns without writing one is answered with 200. *)
Record ResponseWriter := mkResponseWriter {
  Header : gmap string string;
  status : option Z;
  body : string
}.

Definition MethodPost : string := "POST".
Definition StatusOK : Z := 200.
Definition StatusBadRequest : Z := 400.
Definition StatusMethodNotAllowed : Z := 405.
Definition StatusServiceUnavailable : Z := 503.

Definition NewRecorder : ResponseWriter :=
  {| Header := ∅; status := None; body := "" |}.

Definition Set_ (w : ResponseWriter) (key val : string) : ResponseWriter :=
  {| Header := <[key := val]> (Header w); status := status w; body := body w |}.

Definition WriteHeader (w : ResponseWriter) (code : Z) : ResponseWriter :=
  match status w with
  | Some _ => w
  | None => {| Header := Header w; status := Some code; body := body w |}
  end.

Definition Write (w : ResponseWriter) (bytes : string) : ResponseWriter :=
  let w' := WriteHeader w StatusOK in
  {| Header := Header w'; status := status w'; body := (body w' ++ bytes)%string |}.

(** [http.Error]: a plain-text reply, the message followed by a newline. *)
Definition Error (w : ResponseWriter) (error : string) (code : Z) : ResponseWriter :=
  let w1 := Set_ w "Content-Type" "text/plain; charset=utf-8" in
  let w2 := Set_ w1 "X-Content-Type-Options" "nosniff" in
  Write (WriteHeader w2 code) (error ++ nl).

(** The status the client sees. *)
Definition Code (w : ResponseWriter) : Z := default StatusOK (status w).
End http.

(** A byte string between double quotes. *)
Definition quote (s : string) : string :=
  String (ascii_of_nat 34) s ++ String (ascii_of_nat 34) EmptyString.

(** What [decoder.Decode(&req)] can report in the stdio loop. *)
Inductive DecodeResult : Type :=
| DecodeOK (req : JsonRPCRequest.t)
| DecodeEOF
| DecodeError (err : error).

(** The errors a [json.Decoder] keeps (its field [err]): every error met
    while reading a value (malformed text, a read error) is stored, and
    every later [Decode] returns it at once.  Only the error of a value
    that was read whole and does not fit the target, a type error, is not
    kept: the decoder has moved past that value. *)
Definition keptByDecoder (e : error) : bool :=
  match e with
  | UnmarshalTypeError _ _ => false
  | _ => true
  end.

(** A [json.Decoder] on standard input.  [stream] is what the input
    holds, value by value: a request, a well-formed value that does not
    fit the request struct (a type error), malformed text (a syntax
    error), the end of the input.  [offset] counts the values the decoder
    has moved past. *)
Record Decoder := mkDecoder { stream : nat -> DecodeResult; offset : nat }.

Definition NewDecoder (stdin : nat -> DecodeResult) : Decoder :=
  {| stream := stdin; offset := 0%nat |}.

(** [decoder.Decode(&req)].  A decoded request and a type error move the
    decoder to the next value.  At an error it keeps, and at the end of
    the input, the decoder stays where it is: every later [Decode]
    reports the same again, and what follows in the input is not read. *)
Definition Decode (d : Decoder) : DecodeResult * Decoder :=
  let next := {| stream := stream d; offset := S (offset d) |} in
  match stream d (offset d) with
  | DecodeOK req => (DecodeOK req, next)
  | DecodeError err => (DecodeError err, if keptByDecoder err then d else next)
  | DecodeEOF => (DecodeEOF, d)
  end.

(** A [json.Encoder] on standard output: the responses written so far;
    [encodeError] says which writes fail. *)
Record Encoder := mkEncoder {
  encodeError : JsonRPCResponse.t -> option error;
  written : list JsonRPCResponse.t
}.

Definition NewEncoder (stdout : JsonRPCResponse.t -> option error) : Encoder :=
  {| encodeError := stdout; written := [] |}.

Definition Encode (e : Encoder) (resp : JsonRPCResponse.t) : option error * Encoder :=
  match encodeError e resp with
  | Some err => (Some err, e)
  | None => (None, {| encodeError := encodeError e; written := written e ++ [resp] |})
  end.

(** How a run of the stdio loop ends within the steps it was given. *)
Inductive LoopExit : Type :=
| Finished
| OutOfFuel.

Section Dispatcher.

(** [encoding/json] is not part of this repository; its three uses are
    parameters: decoding the params of [tools/call], decoding an HTTP
    body into an arguments map, and encoding a value. *)
Variable json_Unmarshal_callParams : RawMessage -> error + callParams.
Variable json_Decode_arguments : string -> error + gmap string value.
Variable json_Marshal : value -> string.

Definition HandleToolsCall (s : MCPServer) (params : RawMessage)
    : M (option (gmap string value) * option (gmap string value)) :=
  match json_Unmarshal_callParams params with
  | inl err =>
      log_Printf "Failed to parse tools/call params: %v" [LErr err] ;;;
      ret (None, Some {[ "code" := VInt (-32602);
                         "message" := VString "Invalid params" ]})
  | inr callParams =>
      match tools s !! cp_Name callParams with
      | None =>
          log_Printf "Unknown tool: %s" [LStr (cp_Name callParams)] ;;;
          ret (None, Some {[ "code" := VInt (-32602);
                             "message" := VString "Unknown tool" ]})
      | Some tool =>
          let* '(content, err) := Call tool (cp_Arguments callParams) in
          match err with
          | Some e =>
              log_Printf "Tool call failed: %v" [LErr e] ;;;
              ret (Some {[ "content" := contentValue content;
                           "isError" := VBool true ]}, None)
          | None =>
              ret (Some {[ "content" := contentValue content ]}, None)
          end
      end
  end.

(** [resp.Result = result] with [result] a map: a nil map stored in an
    interface is not the nil interface. *)
Definition mapInterface (m : option (gmap string value)) : option value :=
  match m with
  | Some fields => Some (VObject fields)
  | None => Some VNil
  end.

Definition ProcessRequest (s : MCPServer) (req : JsonRPCRequest.t)
    : M JsonRPCResponse.t :=
  let resp (result error : option value) :=
    {| JsonRPCResponse.Jsonrpc := "2.0";
       JsonRPCResponse.ID := JsonRPCRequest.ID req;
       JsonRPCResponse.Result := result;
       JsonRPCResponse.Error := error |} in
  let* t0 := time_Now in
  log_Printf "[%s] Got JSON-RPC request: method=%s, id=%d"
    [LTime t0; LStr (JsonRPCRequest.Method req); LInt (JsonRPCRequest.ID req)] ;;;
  if String.eqb (JsonRPCRequest.Method req) "initialize" then
    log_Println "Handling initialize" ;;;
    ret (resp (Some (VObject (HandleInitialize s))) None)
  else if String.eqb (JsonRPCRequest.Method req) "tools/list" then
    log_Println "Handling tools/list" ;;;
    ret (resp (Some (VObject (HandleToolsList s))) None)
  else if String.eqb (JsonRPCRequest.Method req) "tools/call" then
    log_Println "Handling tools/call" ;;;
    let* '(result, errorResp) := HandleToolsCall s (JsonRPCRequest.Params req) in
    match errorResp with
    | Some e => ret (resp None (Some (VObject e)))
    | None => ret (resp (mapInterface result) None)
    end
  else
    log_Printf "Unknown method: %s" [LStr (JsonRPCRequest.Method req)] ;;;
    ret (resp None (Some (VObject {[ "code" := VInt (-32601);
                                     "message" := VString "Method not found" ]}))).

(** The loop of [RunStdio]; [fuel] bounds the number of [Decode] calls. *)
Fixpoint RunStdio_loop (fuel : nat) (s : MCPServer) (decoder : Decoder)
    (encoder : Encoder) : M (LoopExit * Decoder * Encoder) :=
  match fuel with
  | O => ret (OutOfFuel, decoder, encoder)
  | S fuel' =>
      let '(r, decoder') := Decode decoder in
      match r with
      | DecodeEOF => ret (Finished, decoder', encoder)
      | DecodeError err =>
          log_Printf "Error decoding JSON-RPC: %v" [LErr err] ;;;
          RunStdio_loop fuel' s decoder' encoder
      | DecodeOK req =>
          let* resp := ProcessRequest s req in
          let '(err, encoder') := Encode encoder resp in
          match err with
          | Some e =>
              log_Printf "Failed to write JSON-RPC response: %v" [LErr e] ;;;
              RunStdio_loop fuel' s decoder' encoder'
          | None => RunStdio_loop fuel' s decoder' encoder'
          end
      end
  end.

Definition RunStdio (fuel : nat) (s : MCPServer) (stdin : nat -> DecodeResult)
    (stdout : JsonRPCResponse.t -> option error)
    : M (LoopExit * Decoder * Encoder) :=
  RunStdio_loop fuel s (NewDecoder stdin) (NewEncoder stdout).

(** [x == "text"] for an interface [x] read from a map. *)
Definition isString (x : option value) (s : string) : bool :=
  match x with
  | Some (VString s') => String.eqb s' s
  | _ => false
  end.

Definition HandleHTTP (s : MCPServer) (w : http.ResponseWriter) (r : http.Request)
    : M http.ResponseWriter :=
  log_Println "Got HTTP request" ;;;
  if negb (String.eqb (http.Method r) http.MethodPost) then
    log_Println "Called with a GET" ;;;
    ret (http.Error w "Method not allowed" http.StatusMethodNotAllowed)
  else
    match json_Decode_arguments (http.Body r) with
    | inl err =>
        log_Println "Couldn't decode the JSON" ;;;
        ret (http.Error w "malformed request" http.StatusBadRequest)
    | inr arguments =>
        match tools s !! "get_help" with
        | None =>
            ret (http.Error w
                   ("{" ++ quote "error" ++ ":" ++ quote "Tool not available" ++ "}")
                   http.StatusServiceUnavailable)
        | Some tool =>
            let* '(content, err) := Call tool arguments in
            match err with
            | Some e =>
                log_Printf "Tool call failed: %v" [LErr e] ;;;
                ret (http.Error w
                       ("{" ++ quote "error" ++ ":" ++ quote unavailableText ++ "}")
                       http.StatusServiceUnavailable)
            | None =>
                match content with
                | c0 :: _ =>
                    if isString (c0 !! "type") "text" then
                      match c0 !! "text" with
                      | Some (VString text) =>
                          let w1 := http.Set_ w "Content-Type" "application/json" in
                          ret (http.Write w1
                                 (json_Marshal (VObject {[ "answer" := VString text ]})
                                  ++ nl))
                      | _ => panic "interface conversion: interface {} is not string"
                      end
                    else ret w
                | [] => ret w
                end
            end
        end
    end.

End Dispatcher.

(* ===================================================================== *)
(** * Vocabulary of the properties *)
(* ===================================================================== *)

(* ===================================================================== *)
(** ** Test doubles *)
(* ===================================================================== *)

(** An upstream that answers its n-th call with the n-th entry of a
    script, whatever the time and the context. *)
Definition scripted (script : list (Duration * (error + ChatCompletionResponse)))
    : Upstream :=
  fun n _ _ _ _ => nth n script (0, inl (errorString "script exhausted")).

(** An upstream that honours the context: a call started at or after the
    deadline fails at once, and one still running at the deadline is cut
    there; both report [DeadlineExceeded]. *)
Definition honouring (u : Upstream) : Upstream :=
  fun n t ctx client req =>
    match Deadline ctx with
    | None => u n t ctx client req
    | Some D =>
        if D <=? t then (0, inl DeadlineExceeded)
        else
          let '(d, r) := u n t ctx client req in
          if D <? t + d then (D - t, inl DeadlineExceeded) else (d, r)
    end.

Definition answer (text : string) : error + ChatCompletionResponse :=
  inr {| Choices := [{| Message := {| Role := "assistant"; Content := text |} |}] |}.

(** A world at time 0 with a README, an API key and the given upstream. *)
Definition startWorld (u : Upstream) : World :=
  {| now := 0;
     files := fun path =>
       if String.eqb path "./README.md" then inr (inr "MCP Escalator")
       else inl (PathError "open" path "no such file or directory");
     environ := fun key => if String.eqb key "OPENAI_API_KEY" then "sk-test" else "";
     upstream := u;
     opened := []; requests := []; slept := []; logged := [] |}.

(** A decoder given by a table from input text to decoded value. *)
Definition tableDecoder {A} (table : list (string * A)) (input : string) : error + A :=
  match List.find (fun entry => String.eqb entry.1 input) table with
  | Some entry => inr entry.2
  | None => inl (SyntaxError "invalid character")
  end.

(** An encoder for the one shape the HTTP handler encodes, for texts that
    need no escaping. *)
Definition plainMarshal (v : value) : string :=
  match v with
  | VObject fields =>
      match fields !! "answer" with
      | Some (VString text) => "{" ++ quote "answer" ++ ":" ++ quote text ++ "}"
      | _ => "null"
      end
  | _ => "null"
  end.

Definition getHelpServer : MCPServer :=
  RegisterTool (NewMCPServer "escalator" "1.0.0")
               (GetHelpTool_Tool (NewGetHelpTool "" "gpt-4o")).

(* ===================================================================== *)
(** ** The retry loop of askOpenAI *)
(* ===================================================================== *)

(** The request every attempt sends. *)
Definition chatRequest (t : GetHelpTool) (prompt : string) : ChatCompletionRequest :=
  {| Model := if String.eqb (modelName t) "" then "o3" else modelName t;
     Messages := [{| Role := ChatMessageRoleUser; Content := prompt |}] |}.

(** What the upstream does with an attempt started in world [w]. *)
Definition attempt (t : GetHelpTool) (ctx : Context) (prompt : string) (w : World)
    : Duration * (error + ChatCompletionResponse) :=
  upstream w (length (requests w)) (now w) ctx
    (openai_NewClient (environ w "OPENAI_API_KEY")) (chatRequest t prompt).

(** The world when that attempt has come back. *)
Definition afterAttempt (t : GetHelpTool) (ctx : Context) (prompt : string)
    (w : World) : World :=
  (CreateChatCompletion (openai_NewClient (environ w "OPENAI_API_KEY")) ctx
     (chatRequest t prompt) w).2.

Definition afterSleep (d : Duration) (w : World) : World := (time_Sleep d w).2.

(** What [askOpenAI] returns for a response. *)
Definition answerOf (resp : ChatCompletionResponse) : string * option error :=
  match Choices resp with
  | [] => ("", Some (errorString "no response from OpenAI"))
  | c :: _ => (Content (Message c), None)
  end.

(** The error classes of the retry policy (comment in [askOpenAI]:
    retryable is 429 or 5xx). *)
Definition transient (e : error) : bool :=
  match e with
  | APIError code _ => (code =? 429) || ((500 <=? code) && (code <? 600))
  | _ => false
  end.

(** The backoff delays slept between [w] and [w']. *)
Definition delays (w w' : World) : list Duration :=
  (drop (length (slept w)) (slept w')).*2.

(** The start times of the upstream calls made between [w] and [w']. *)
Definition attempts (w w' : World) : list Time :=
  (drop (length (requests w)) (requests w')).*1.

Definition sumZ (l : list Z) : Z := foldr Z.add 0 l.

(** The two worlds the retry loop passes through after a failure. *)
Definition retry1 (t : GetHelpTool) (ctx : Context) (prompt : string) (w : World) : World :=
  afterSleep (2 * Second) (afterAttempt t ctx prompt w).

Definition retry2 (t : GetHelpTool) (ctx : Context) (prompt : string) (w : World) : World :=
  afterSleep (4 * Second) (afterAttempt t ctx prompt (retry1 t ctx prompt w)).

(** An upstream honours the context when it fails at once, with
    [DeadlineExceeded], every call started at or after the deadline. *)
Definition honoursDeadline (u : Upstream) : Prop :=
  forall n start ctx client req D,
    Deadline ctx = Some D -> D <= start ->
    u n start ctx client req = (0, inl DeadlineExceeded).

(** A necessary condition of "the call fails immediately when the
    deadline elapses mid-retry": no retry and no backoff sleep starts at
    or after the deadline. *)
Definition stopsAtDeadline (t : GetHelpTool) (ctx : Context) (prompt : string)
    (w : World) : Prop :=
  forall D, Deadline ctx = Some D ->
    let w' := (askOpenAI t ctx prompt w).2 in
    forallb (fun start => start <? D) (tail (attempts w w')) = true /\
    forallb (fun s : Time * Duration => s.1 <? D)
            (drop (length (slept w)) (slept w')) = true.

(** The first attempt takes 179 s and ends in a 503; the deadline is at
    180 s. *)
Definition slowWorld : World :=
  startWorld (honouring (scripted [(179 * Second, inl (APIError 503 "overloaded"));
                                   (1 * Second, answer "late")])).

Definition deadline180 : Context := {| Deadline := Some (180 * Second) |}.

Definition defaultTool : GetHelpTool := NewGetHelpTool "" "gpt-4o".

(** The first attempt is refused with a 401, the second would succeed. *)
Definition authFailureWorld : World :=
  startWorld (scripted [(1 * Second, inl (APIError 401 "Incorrect API key provided"));
                        (1 * Second, answer "late answer")]).

(** Rate-limited, then overloaded, then an answer. *)
Definition flakyWorld : World :=
  startWorld (scripted [(1 * Second, inl (APIError 429 "Rate limit reached"));
                        (1 * Second, inl (APIError 503 "overloaded"));
                        (1 * Second, answer "Use table-driven tests.")]).

(* ===================================================================== *)
(** ** The prompt assembler *)
(* ===================================================================== *)

(** The template with its three operands in place: the literal text of
    the template around them, nothing added, nothing escaped. *)
Definition rendered (summary question relevantCode : string) : string :=
  "As a software architect, provide help with this issue:" ++ nl ++ nl ++
  "<summary>" ++ nl ++ summary ++ nl ++ "</summary>" ++ nl ++ nl ++
  "---" ++ nl ++ "**Question:** " ++ question ++ nl ++ nl ++
  "**Relevant Code:** " ++ relevantCode.

(** [strings.Repeat]. *)
Fixpoint strings_Repeat (s : string) (count : nat) : string :=
  match count with
  | O => ""
  | S n => s ++ strings_Repeat s n
  end.

(* ===================================================================== *)
(** ** Argument checking in Call *)
(* ===================================================================== *)

(** What [Call] returns when a required field is missing. *)
Definition missingFieldsReply : list (gmap string value) * option error :=
  ([textBlock "Error: Missing required fields: question and summary"],
   Some (errorString "missing required fields")).

(** A required field that is not there, or is the empty string. *)
Definition absentOrEmpty (x : option value) : Prop :=
  x = None \/ x = Some (VString "").

(** A field that is there but does not hold a string. *)
Definition nonString (x : option value) : Prop :=
  exists v, x = Some v /\ forall s, v <> VString s.

(* ===================================================================== *)
(** ** The dispatcher *)
(* ===================================================================== *)

(** The three methods [ProcessRequest] knows. *)
Definition recognized (method : string) : Prop :=
  method = "initialize" \/ method = "tools/list" \/ method = "tools/call".

(** Every registered tool's [Call] returns (does not panic). *)
Definition toolsReturn (s : MCPServer) : Prop :=
  forall name tool arguments w,
    tools s !! name = Some tool ->
    exists r w', Call tool arguments w = (Ok r, w').

(** Exactly one of [result] and [error] is set. *)
Definition resultXorError (resp : JsonRPCResponse.t) : Prop :=
  (JsonRPCResponse.Result resp <> None /\ JsonRPCResponse.Error resp = None) \/
  (JsonRPCResponse.Result resp = None /\ JsonRPCResponse.Error resp <> None).

(** The world with more log records, all else as it was. *)
Definition withLog (w : World) (records : list LogRecord) : World :=
  {| now := now w; files := files w; environ := environ w;
     upstream := upstream w; opened := opened w; requests := requests w;
     slept := slept w; logged := logged w ++ records |}.

Definition unknownToolError : gmap string value :=
  {[ "code" := VInt (-32602); "message" := VString "Unknown tool" ]}.

(* ===================================================================== *)
(** ** The HTTP handler *)
(* ===================================================================== *)

(** A JSON object with one string member, as text. *)
Definition jsonMember (key val : string) : string :=
  "{" ++ quote key ++ ":" ++ quote val ++ "}".

(** What the client sees of a reply: status, content type, body. *)
Definition reply (w : http.ResponseWriter) : Z * option string * string :=
  (http.Code w, http.Header w !! "Content-Type", http.body w).

Definition plainText : option string := Some "text/plain; charset=utf-8".

(** The world in which the handler calls the tool: one line was logged. *)
Definition atToolCall (w : World) : World :=
  withLog w [{| logFormat := "Got HTTP request"; logArgs := [] |}].

(** The first content block is a text block. *)
Definition firstIsText (content : list (gmap string value)) : bool :=
  match content with
  | c0 :: _ => isString (c0 !! "type") "text"
  | [] => false
  end.

(** A reply of status 400 whose body is the JSON object
    [{"error":"malformed request"}], with or without a final newline. *)
Definition malformedJSONReply (w : http.ResponseWriter) : Prop :=
  http.Code w = 400 /\
  (http.body w = jsonMember "error" "malformed request" \/
   http.body w = jsonMember "error" "malformed request" ++ nl).

Definition postInvalidJSON : http.Request :=
  {| http.Method := "POST"; http.Body := "invalid json" |}.

(* ===================================================================== *)
(** ** The stdio loop *)
(* ===================================================================== *)


(** The log line of the loop for a decode error. *)
Definition decodeErrorLine (err : error) : LogRecord :=
  {| logFormat := "Error decoding JSON-RPC: %v"; logArgs := [LErr err] |}.

(** What [Decode] reports for the text [hello]. *)
Definition invalidCharacter : error :=
  SyntaxError "invalid character 'h' looking for beginning of value".

Definition stdoutOK : JsonRPCResponse.t -> option error := fun _ => None.

(* ===================================================================== *)
(** ** Requests of the examples *)
(* ===================================================================== *)

Definition testArguments : gmap string value :=
  {[ "question" := VString "How do I test this?";
     "summary" := VString "Test project" ]}.

(** [{"question":"How do I test this?","summary":"Test project"}] *)
Definition testArgumentsText : string :=
  "{" ++ quote "question" ++ ":" ++ quote "How do I test this?" ++ "," ++
  quote "summary" ++ ":" ++ quote "Test project" ++ "}".

(** The params of a call of [name] with the test arguments. *)
Definition callParamsText (name : string) : string :=
  "{" ++ quote "name" ++ ":" ++ quote name ++ "," ++
  quote "arguments" ++ ":" ++ testArgumentsText ++ "}".

Definition testUnmarshal : RawMessage -> error + callParams :=
  tableDecoder
    [ (callParamsText "get_help",
       {| cp_Name := "get_help"; cp_Arguments := testArguments |});
      (callParamsText "no_such_tool",
       {| cp_Name := "no_such_tool"; cp_Arguments := testArguments |}) ].

Definition testDecode : string -> error + gmap string value :=
  tableDecoder [ (testArgumentsText, testArguments) ].

Definition toolsCall (id : Z) (name : string) : JsonRPCRequest.t :=
  {| JsonRPCRequest.Jsonrpc := "2.0"; JsonRPCRequest.ID := id;
     JsonRPCRequest.Method := "tools/call";
     JsonRPCRequest.Params := callParamsText name |}.

Definition initialize (id : Z) : JsonRPCRequest.t :=
  {| JsonRPCRequest.Jsonrpc := "2.0"; JsonRPCRequest.ID := id;
     JsonRPCRequest.Method := "initialize"; JsonRPCRequest.Params := "{}" |}.

(** The upstream answers the first call. *)
Definition answeringWorld : World :=
  startWorld (scripted [(1 * Second, answer "Use table-driven tests.")]).

(** An input of two lines: the text [hello], then an [initialize]
    request with id 1. *)
Definition helloThenInitialize : nat -> DecodeResult :=
  fun i => match i with
           | 0%nat => DecodeError invalidCharacter
           | 1%nat => DecodeOK (initialize 1)
           | _ => DecodeEOF
           end.

(* ===================================================================== *)
(** ** More vocabulary: the tool past validation, the registry *)
(* ===================================================================== *)

(** The file [loadSummary] opens. *)
Definition summaryFile (t : GetHelpTool) : string :=
  if String.eqb (summaryPath t) "" then "./README.md" else summaryPath t.

(** Both required fields are strings and not empty. *)
Definition validFields (arguments : gmap string value) (question summary : string)
    : Prop :=
  arguments !! "question" = Some (VString question) /\ question <> "" /\
  arguments !! "summary" = Some (VString summary) /\ summary <> "".

(** The relevant code [Call] works with: the field if it is a string. *)
Definition relevantCodeOf (arguments : gmap string value) : string :=
  (assertString (arguments !! "relevant_code")).1.

(** The world after [os.Open path]. *)
Definition withOpened (w : World) (path : string) : World := (os_Open path w).2.

(** The reply of [Call] after a failure past validation, and the world
    with the log line of that failure. *)
Definition unavailable (e : error) (format : string) (w : World)
    : Outcome (list (gmap string value) * option error) * World :=
  (Ok ([textBlock unavailableText], Some e),
   withLog w [{| logFormat := format; logArgs := [LErr e] |}]).

(** The context [Call] hands to [askOpenAI]: three minutes from now. *)
Definition callContext (w : World) : Context :=
  {| Deadline := Some (now w + 3 * Minute) |}.

(** The world in which [Call] starts the upstream call. *)
Definition atUpstreamCall (t : GetHelpTool) (w : World) : World :=
  withLog (withOpened w (summaryFile t))
    [{| logFormat := "Ready to call OpenAI"; logArgs := [] |}].

(** The text of a content block. *)
Definition blockText (block : gmap string value) : option value := block !! "text".

(** The two messages [Call] puts in a content block when it fails. *)
Definition failureText (text : string) : Prop :=
  text = unavailableText \/
  text = "Error: Missing required fields: question and summary".

(** Only the log, the clock, the files opened, the sleeps and the calls
    made can differ between [w] and [w']; the files, the environment and
    the upstream are the same. *)
Definition sameSurroundings (w w' : World) : Prop :=
  files w' = files w /\ environ w' = environ w /\ upstream w' = upstream w.

(** The registry after registering the tools of a list, first to last. *)
Definition registerAll (s : MCPServer) (ts : list Tool) : MCPServer :=
  foldl RegisterTool s ts.

(** Every tool sits under its own name. *)
Definition keyedByName (s : MCPServer) : Prop :=
  forall key tool, tools s !! key = Some tool -> Name tool = key.

(** The entry of a tool in the answer to [tools/list]. *)
Definition toolEntry (tool : Tool) : value :=
  VObject {[ "name" := VString (Name tool);
             "description" := VString (Description tool);
             "inputSchema" := VObject (Schema tool) ]}.

(** The entries of the answer to [tools/list]. *)
Definition listedTools (result : gmap string value) : list value :=
  match result !! "tools" with
  | Some (VArray entries) => entries
  | _ => []
  end.

Definition methodNotFoundError : gmap string value :=
  {[ "code" := VInt (-32601); "message" := VString "Method not found" ]}.

Definition invalidParamsError : gmap string value :=
  {[ "code" := VInt (-32602); "message" := VString "Invalid params" ]}.

(** The first log line of [ProcessRequest]. *)
Definition requestLog (req : JsonRPCRequest.t) (w : World) : LogRecord :=
  {| logFormat := "[%s] Got JSON-RPC request: method=%s, id=%d";
     logArgs := [LTime (now w); LStr (JsonRPCRequest.Method req);
                 LInt (JsonRPCRequest.ID req)] |}.


(** A tool that fails with a message and emits one block. *)
Definition failingTool (name : string) : Tool :=
  {| Name := name; Description := "always fails"; Schema := ∅;
     Call := fun _ => ret ([textBlock "partial"], Some (errorString "boom")) |}.

(** A tool that answers with a fixed text. *)
Definition constantTool (name text : string) : Tool :=
  {| Name := name; Description := "constant"; Schema := ∅;
     Call := fun _ => ret ([textBlock text], None) |}.

(** A world without the README. *)
Definition noReadmeWorld : World :=
  {| now := 0;
     files := fun path => inl (PathError "open" path "no such file or directory");
     environ := fun key => if String.eqb key "OPENAI_API_KEY" then "sk-test" else "";
     upstream := scripted [];
     opened := []; requests := []; slept := []; logged := [] |}.

(** A world whose README holds 80000 bytes. *)
Definition bigReadmeWorld : World :=
  {| now := 0;
     files := fun path => inr (inr (strings_Repeat "a" (Z.to_nat 80000)));
     environ := fun key => if String.eqb key "OPENAI_API_KEY" then "sk-test" else "";
     upstream := scripted [];
     opened := []; requests := []; slept := []; logged := [] |}.

(** Three failures in a row. *)
Definition failingWorld : World :=
  startWorld (scripted [(1 * Second, inl (APIError 500 "first"));
                        (1 * Second, inl (APIError 502 "second"));
                        (1 * Second, inl (APIError 503 "third"))]).

(** The upstream answers with no choice at all. *)
Definition emptyAnswerWorld : World :=
  startWorld (scripted [(1 * Second, inr {| Choices := [] |});
                        (1 * Second, answer "never asked")]).

(** The response of [ProcessRequest] to [req] with the given outcome. *)
Definition responseTo (req : JsonRPCRequest.t) (result error : option value)
    : JsonRPCResponse.t :=
  {| JsonRPCResponse.Jsonrpc := "2.0";
     JsonRPCResponse.ID := JsonRPCRequest.ID req;
     JsonRPCResponse.Result := result;
     JsonRPCResponse.Error := error |}.

(** The world in which [tools/call] reaches the tool: two lines logged. *)
Definition atDispatch (req : JsonRPCRequest.t) (w : World) : World :=
  withLog w [requestLog req w; {| logFormat := "Handling tools/call"; logArgs := [] |}].

Definition unknownMethod (id : Z) : JsonRPCRequest.t :=
  {| JsonRPCRequest.Jsonrpc := "2.0"; JsonRPCRequest.ID := id;
     JsonRPCRequest.Method := "resources/list"; JsonRPCRequest.Params := "{}" |}.

Definition toolsList (id : Z) : JsonRPCRequest.t :=
  {| JsonRPCRequest.Jsonrpc := "2.0"; JsonRPCRequest.ID := id;
     JsonRPCRequest.Method := "tools/list"; JsonRPCRequest.Params := "{}" |}.

(** A [tools/call] whose params do not decode. *)
Definition brokenCall (id : Z) : JsonRPCRequest.t :=
  {| JsonRPCRequest.Jsonrpc := "2.0"; JsonRPCRequest.ID := id;
     JsonRPCRequest.Method := "tools/call"; JsonRPCRequest.Params := "[1,2" |}.

(** A tool that panics, as a type assertion on a missing argument does. *)
Definition panickingTool (name : string) : Tool :=
  {| Name := name; Description := "panics"; Schema := ∅;
     Call := fun _ => panic "interface conversion: interface {} is nil, not string" |}.

(** A server whose only tool fails. *)
Definition failingServer : MCPServer :=
  RegisterTool (NewMCPServer "escalator" "1.0.0") (failingTool "get_help").

(** A server whose only tool panics. *)
Definition panickingServer : MCPServer :=
  RegisterTool (NewMCPServer "escalator" "1.0.0") (panickingTool "get_help").

(** Params of a call of [get_help] with a summary only, and a decoder
    that knows them. *)
Definition summaryOnlyParamsText : string :=
  "{" ++ quote "name" ++ ":" ++ quote "get_help" ++ "," ++
  quote "arguments" ++ ":{" ++ quote "summary" ++ ":" ++ quote "test summary" ++ "}}".

Definition summaryOnly : gmap string value := {[ "summary" := VString "test summary" ]}.

Definition summaryOnlyUnmarshal : RawMessage -> error + callParams :=
  tableDecoder
    [ (summaryOnlyParamsText, {| cp_Name := "get_help"; cp_Arguments := summaryOnly |}) ].

Definition summaryOnlyCall (id : Z) : JsonRPCRequest.t :=
  {| JsonRPCRequest.Jsonrpc := "2.0"; JsonRPCRequest.ID := id;
     JsonRPCRequest.Method := "tools/call";
     JsonRPCRequest.Params := summaryOnlyParamsText |}.

(** [{"summary":"test summary"}] and a decoder for HTTP bodies that knows
    it. *)
Definition summaryOnlyText : string :=
  "{" ++ quote "summary" ++ ":" ++ quote "test summary" ++ "}".

Definition summaryOnlyDecode : string -> error + gmap string value :=
  tableDecoder [ (summaryOnlyText, summaryOnly) ].


(** A request to the panicking tool, then one more request. *)
Definition panicThenRequest : nat -> DecodeResult :=
  fun i => match i with
           | 0%nat => DecodeOK (toolsCall 1 "get_help")
           | 1%nat => DecodeOK (initialize 2)
           | _ => DecodeEOF
           end.

Definition getRequest : http.Request := {| http.Method := "GET"; http.Body := "" |}.

(* ===================================================================== *)
(** * Properties *)
(* ===================================================================== *)

(* ===================================================================== *)
(** ** The retry loop of askOpenAI *)
(* ===================================================================== *)

(** [askOpenAI] unrolled: three attempts, a sleep after the first and the
    second failure, no look at the error or at the clock. *)
Lemma askOpenAI_unrolled t ctx prompt w :
  askOpenAI t ctx prompt w =
  match attempt t ctx prompt w with
  | (_, inr resp) => (Ok (answerOf resp), afterAttempt t ctx prompt w)
  | (_, inl _) =>
      let w1 := afterSleep (2 * Second) (afterAttempt t ctx prompt w) in
      match attempt t ctx prompt w1 with
      | (_, inr resp) => (Ok (answerOf resp), afterAttempt t ctx prompt w1)
      | (_, inl _) =>
          let w2 := afterSleep (4 * Second) (afterAttempt t ctx prompt w1) in
          match attempt t ctx prompt w2 with
          | (_, inr resp) => (Ok (answerOf resp), afterAttempt t ctx prompt w2)
          | (_, inl e) => (Ok ("", Some e), afterAttempt t ctx prompt w2)
          end
      end
  end.
Proof.
  unfold askOpenAI, forRange, attempt, afterAttempt, afterSleep, answerOf, chatRequest.
  cbn [seq forEach].
  unfold bind, os_Getenv, CreateChatCompletion, time_Sleep, index, ret.
  cbn -[Z.mul Z.add Z.max Second String.eqb].
  repeat match goal with
         | |- context [upstream ?a ?b ?c ?d ?e ?f] =>
             destruct (upstream a b c d e f) as [? [?|?]];
             cbn -[Z.mul Z.add Z.max Second String.eqb]
         end;
    try reflexivity.
  all: match goal with |- context [Choices ?r] => destruct (Choices r) end; reflexivity.
Qed.

Lemma delays_app w w' (l : list (Time * Duration)) :
  slept w' = (slept w ++ l)%list -> delays w w' = l.*2.
Proof. intros E. unfold delays. rewrite E, drop_app_length. reflexivity. Qed.

Lemma attempts_app w w' (l : list (Time * ChatCompletionRequest)) :
  requests w' = (requests w ++ l)%list -> attempts w w' = l.*1.
Proof. intros E. unfold attempts. rewrite E, drop_app_length. reflexivity. Qed.

(** [askOpenAI] always returns: the index into the backoff table is in
    range whenever it is used. *)
Lemma askOpenAI_returns t ctx prompt w :
  exists r w', askOpenAI t ctx prompt w = (Ok r, w').
Proof.
  rewrite askOpenAI_unrolled.
  destruct (attempt t ctx prompt w) as [? [?|?]]; [|eauto].
  cbv zeta.
  destruct (attempt t ctx prompt _) as [? [?|?]]; [|eauto].
  destruct (attempt t ctx prompt _) as [? [?|?]]; eauto.
Qed.

Lemma attempt_retry1 t ctx prompt w :
  attempt t ctx prompt (retry1 t ctx prompt w) =
  upstream w (S (length (requests w)))
    (now w + (attempt t ctx prompt w).1 + 2 * Second) ctx
    (openai_NewClient (environ w "OPENAI_API_KEY")) (chatRequest t prompt).
Proof.
  unfold attempt at 1, retry1, afterSleep, afterAttempt, time_Sleep, CreateChatCompletion.
  cbn -[Z.mul Z.max Second attempt chatRequest].
  rewrite length_app, Nat.add_1_r. reflexivity.
Qed.

Lemma attempt_retry2 t ctx prompt w :
  attempt t ctx prompt (retry2 t ctx prompt w) =
  upstream w (S (S (length (requests w))))
    (now w + (attempt t ctx prompt w).1 + 2 * Second
     + (attempt t ctx prompt (retry1 t ctx prompt w)).1 + 4 * Second) ctx
    (openai_NewClient (environ w "OPENAI_API_KEY")) (chatRequest t prompt).
Proof.
  unfold attempt at 1, retry2, afterSleep, afterAttempt at 1, time_Sleep,
    CreateChatCompletion.
  cbn -[Z.mul Z.max Second attempt chatRequest retry1].
  fold (attempt t ctx prompt (retry1 t ctx prompt w)).
  unfold retry1 at 1 2 3 4 5, afterSleep, afterAttempt, time_Sleep, CreateChatCompletion.
  cbn -[Z.mul Z.max Second attempt chatRequest retry1].
  fold (attempt t ctx prompt w).
  rewrite !length_app, !Nat.add_1_r. reflexivity.
Qed.

(** C1, evaluated on the code: the first attempt fails with a 401, which
    is not a transient error, and [askOpenAI] does not fail with it: it
    sleeps 2 s, makes a second attempt and returns that attempt's answer. *)
Theorem askOpenAI_retries_auth_failure :
  attempt defaultTool context_Background "p" authFailureWorld
    = (1 * Second, inl (APIError 401 "Incorrect API key provided")) /\
  transient (APIError 401 "Incorrect API key provided") = false /\
  exists w', askOpenAI defaultTool context_Background "p" authFailureWorld
             = (Ok ("late answer", None), w') /\
             length (attempts authFailureWorld w') = 2%nat /\
             delays authFailureWorld w' = [2 * Second].
Proof.
  split; [reflexivity|]. split; [reflexivity|].
  eexists. split; [vm_compute; reflexivity|]. split; reflexivity.
Qed.

(** C2, counterexample: the deadline (180 s) elapses during the first
    backoff sleep (179 s to 181 s); the call does not fail there: the
    second attempt starts at 181 s, a 4 s sleep starts at 181 s and the
    third attempt starts at 185 s. *)
Lemma askOpenAI_works_past_deadline :
  ~ stopsAtDeadline defaultTool deadline180 "p" slowWorld.
Proof.
  intros H. destruct (H (180 * Second) eq_refl) as [H1 _].
  vm_compute in H1. discriminate H1.
Qed.

(** The world after the third attempt, in terms of the first. *)
Lemma world_after_third t ctx prompt w :
  let d1 := (attempt t ctx prompt w).1 in
  let d2 := (attempt t ctx prompt (retry1 t ctx prompt w)).1 in
  let d3 := (attempt t ctx prompt (retry2 t ctx prompt w)).1 in
  let w' := afterAttempt t ctx prompt (retry2 t ctx prompt w) in
  attempts w w' = [now w; now w + d1 + 2 * Second;
                   now w + d1 + 2 * Second + d2 + 4 * Second] /\
  delays w w' = [2 * Second; 4 * Second] /\
  now w' = now w + d1 + 2 * Second + d2 + 4 * Second + d3.
Proof.
  cbv zeta.
  unfold attempts, delays, retry2, retry1, afterSleep, afterAttempt, attempt,
    time_Sleep, CreateChatCompletion.
  cbn -[Z.mul Z.max Z.add Second chatRequest drop].
  rewrite <- !app_assoc, !drop_app_length.
  repeat split; reflexivity.
Qed.

Lemma world_after_first t ctx prompt w :
  let w' := afterAttempt t ctx prompt w in
  attempts w w' = [now w] /\ delays w w' = [] /\
  now w' = now w + (attempt t ctx prompt w).1.
Proof.
  cbv zeta.
  unfold attempts, delays, afterAttempt, attempt, CreateChatCompletion.
  cbn -[Z.mul Z.max Z.add Second chatRequest drop].
  rewrite drop_app_length, drop_all.
  repeat split; reflexivity.
Qed.

Lemma world_after_second t ctx prompt w :
  let d1 := (attempt t ctx prompt w).1 in
  let d2 := (attempt t ctx prompt (retry1 t ctx prompt w)).1 in
  let w' := afterAttempt t ctx prompt (retry1 t ctx prompt w) in
  attempts w w' = [now w; now w + d1 + 2 * Second] /\
  delays w w' = [2 * Second] /\
  now w' = now w + d1 + 2 * Second + d2.
Proof.
  cbv zeta.
  unfold attempts, delays, retry1, afterSleep, afterAttempt, attempt,
    time_Sleep, CreateChatCompletion.
  cbn -[Z.mul Z.max Z.add Second chatRequest drop].
  rewrite <- !app_assoc, !drop_app_length.
  repeat split; reflexivity.
Qed.

(** C2, as amended: the retry loop hands the deadline to every upstream
    call and never looks at it itself.  When the first attempt has failed
    and the deadline has elapsed by the end of the first backoff sleep,
    the call still makes the second attempt, sleeps the 4 s of the second
    backoff in full and makes the third attempt; with an upstream that
    honours the context it returns [DeadlineExceeded] only then, 6 s of
    sleep after the first failure.  Likewise when the second attempt has
    failed too and the deadline has elapsed by the end of the second
    backoff sleep: the third attempt is still made. *)
Theorem askOpenAI_sleeps_through_deadline t ctx prompt w D d1 e1 :
  honoursDeadline (upstream w) ->
  Deadline ctx = Some D ->
  attempt t ctx prompt w = (d1, inl e1) ->
  (D <= now w + d1 + 2 * Second ->
   exists w', askOpenAI t ctx prompt w = (Ok ("", Some DeadlineExceeded), w') /\
              attempts w w' = [now w; now w + d1 + 2 * Second;
                               now w + d1 + 2 * Second + 4 * Second] /\
              delays w w' = [2 * Second; 4 * Second] /\
              now w' = now w + d1 + 2 * Second + 4 * Second) /\
  (forall d2 e2,
     attempt t ctx prompt (retry1 t ctx prompt w) = (d2, inl e2) ->
     D <= now w + d1 + 2 * Second + d2 + 4 * Second ->
     exists w', askOpenAI t ctx prompt w = (Ok ("", Some DeadlineExceeded), w') /\
                attempts w w' = [now w; now w + d1 + 2 * Second;
                                 now w + d1 + 2 * Second + d2 + 4 * Second] /\
                delays w w' = [2 * Second; 4 * Second] /\
                now w' = now w + d1 + 2 * Second + d2 + 4 * Second).
Proof.
  intros Hu HD H1.
  assert (second : forall d2 e2,
     attempt t ctx prompt (retry1 t ctx prompt w) = (d2, inl e2) ->
     D <= now w + d1 + 2 * Second + d2 + 4 * Second ->
     exists w', askOpenAI t ctx prompt w = (Ok ("", Some DeadlineExceeded), w') /\
                attempts w w' = [now w; now w + d1 + 2 * Second;
                                 now w + d1 + 2 * Second + d2 + 4 * Second] /\
                delays w w' = [2 * Second; 4 * Second] /\
                now w' = now w + d1 + 2 * Second + d2 + 4 * Second).
  { intros d2 e2 H2 Hlate.
    assert (H3 : attempt t ctx prompt (retry2 t ctx prompt w) = (0, inl DeadlineExceeded)).
    { rewrite attempt_retry2, H1, H2. apply (Hu _ _ _ _ _ D HD). exact Hlate. }
    rewrite askOpenAI_unrolled, H1. cbv zeta.
    fold (retry1 t ctx prompt w). rewrite H2.
    fold (retry2 t ctx prompt w). rewrite H3.
    eexists. split; [reflexivity|].
    destruct (world_after_third t ctx prompt w) as (Ha & Hd & Hn).
    rewrite H1, H2, H3 in *. cbn [fst] in *.
    rewrite !Z.add_0_r in *.
    rewrite Ha, Hd, Hn. repeat split; reflexivity. }
  split; [|exact second].
  intros Hlate.
  assert (H2 : attempt t ctx prompt (retry1 t ctx prompt w) = (0, inl DeadlineExceeded)).
  { rewrite attempt_retry1, H1. apply (Hu _ _ _ _ _ D HD). exact Hlate. }
  destruct (second 0 DeadlineExceeded H2) as (w' & E & Ha & Hd & Hn).
  { unfold Second, Millisecond, Microsecond, Nanosecond, Time, Duration in *. lia. }
  rewrite !Z.add_0_r in *.
  exists w'. repeat split; assumption.
Qed.

(** The theorem at [slowWorld]: the deadline of 180 s elapses during the
    sleep from 179 s to 181 s. *)
Lemma askOpenAI_sleeps_through_deadline_witness :
  exists w', askOpenAI defaultTool deadline180 "p" slowWorld
             = (Ok ("", Some DeadlineExceeded), w') /\
             attempts slowWorld w' = [0; 0 + 179 * Second + 2 * Second;
                                      0 + 179 * Second + 2 * Second + 4 * Second] /\
             delays slowWorld w' = [2 * Second; 4 * Second] /\
             now w' = 0 + 179 * Second + 2 * Second + 4 * Second.
Proof.
  apply (askOpenAI_sleeps_through_deadline defaultTool deadline180 "p" slowWorld
           (180 * Second) (179 * Second) (APIError 503 "overloaded")).
  - intros n start ctx client req D HD Hle. cbn. unfold honouring. rewrite HD.
    destruct (D <=? start) eqn:E; [reflexivity|]. apply Z.leb_gt in E.
    unfold Time in *. lia.
  - reflexivity.
  - vm_compute. reflexivity.
  - vm_compute. discriminate.
Defined.

(** C3: [askOpenAI] makes at most three attempts and sleeps 2 s after the
    first failure and 4 s after the second, nothing else; and when the
    first two attempts fail and the third returns a choice, it returns
    that choice's text, having slept 2 s + 4 s. *)
Theorem askOpenAI_three_attempts_fixed_backoff t ctx prompt w :
  (exists r w', askOpenAI t ctx prompt w = (Ok r, w') /\
     (1 <= length (attempts w w') <= 3)%nat /\
     delays w w' = take (length (attempts w w') - 1) [2 * Second; 4 * Second]) /\
  (forall d1 e1 d2 e2 d3 resp c cs,
     attempt t ctx prompt w = (d1, inl e1) ->
     attempt t ctx prompt (retry1 t ctx prompt w) = (d2, inl e2) ->
     attempt t ctx prompt (retry2 t ctx prompt w) = (d3, inr resp) ->
     Choices resp = c :: cs ->
     exists w', askOpenAI t ctx prompt w = (Ok (Content (Message c), None), w') /\
       length (attempts w w') = 3%nat /\
       delays w w' = [2 * Second; 4 * Second] /\
       sumZ (delays w w') = 2 * Second + 4 * Second /\
       now w' = now w + d1 + 2 * Second + d2 + 4 * Second + d3).
Proof.
  split.
  - rewrite askOpenAI_unrolled.
    destruct (world_after_first t ctx prompt w) as (Ha1 & Hd1 & _).
    destruct (world_after_second t ctx prompt w) as (Ha2 & Hd2 & _).
    destruct (world_after_third t ctx prompt w) as (Ha3 & Hd3 & _).
    destruct (attempt t ctx prompt w) as [? [?|?]].
    2: { do 2 eexists. split; [reflexivity|]. rewrite Ha1, Hd1. cbn. split; [lia|reflexivity]. }
    cbv zeta. fold (retry1 t ctx prompt w).
    destruct (attempt t ctx prompt (retry1 t ctx prompt w)) as [? [?|?]].
    2: { do 2 eexists. split; [reflexivity|]. rewrite Ha2, Hd2. cbn. split; [lia|reflexivity]. }
    fold (retry2 t ctx prompt w).
    destruct (attempt t ctx prompt (retry2 t ctx prompt w)) as [? [?|?]];
      do 2 eexists; (split; [reflexivity|]); rewrite Ha3, Hd3; cbn;
      (split; [lia|reflexivity]).
  - intros d1 e1 d2 e2 d3 resp c cs H1 H2 H3 Hc.
    rewrite askOpenAI_unrolled, H1. cbv zeta.
    fold (retry1 t ctx prompt w). rewrite H2.
    fold (retry2 t ctx prompt w). rewrite H3.
    unfold answerOf. rewrite Hc.
    eexists. split; [reflexivity|].
    destruct (world_after_third t ctx prompt w) as (Ha & Hd & Hn).
    rewrite H1, H2, H3 in *. cbn [fst] in *.
    rewrite Ha, Hd, Hn. repeat split; reflexivity.
Qed.

(** The theorem at [flakyWorld]: a 429, a 503, then an answer. *)
Lemma askOpenAI_three_attempts_fixed_backoff_witness :
  exists w', askOpenAI defaultTool context_Background "p" flakyWorld
             = (Ok ("Use table-driven tests.", None), w') /\
    length (attempts flakyWorld w') = 3%nat /\
    delays flakyWorld w' = [2 * Second; 4 * Second] /\
    sumZ (delays flakyWorld w') = 2 * Second + 4 * Second /\
    now w' = 0 + 1 * Second + 2 * Second + 1 * Second + 4 * Second + 1 * Second.
Proof.
  apply (proj2 (askOpenAI_three_attempts_fixed_backoff
                  defaultTool context_Background "p" flakyWorld)
           (1 * Second) (APIError 429 "Rate limit reached")
           (1 * Second) (APIError 503 "overloaded")
           (1 * Second)
           {| Choices := [{| Message := {| Role := "assistant";
                                           Content := "Use table-driven tests." |} |}] |}
           {| Message := {| Role := "assistant"; Content := "Use table-driven tests." |} |}
           []).
  - vm_compute. reflexivity.
  - vm_compute. reflexivity.
  - vm_compute. reflexivity.
  - reflexivity.
Defined.

(* ===================================================================== *)
(** ** The prompt assembler *)
(* ===================================================================== *)

Lemma append_empty_r (s : string) : s ++ "" = s.
Proof.
  induction s as [|c s IH]; [reflexivity|].
  change (String c s ++ "") with (String c (s ++ "")). rewrite IH. reflexivity.
Qed.

Lemma Sprintf_promptTemplate summary question relevantCode :
  Sprintf promptTemplate [summary; question; relevantCode]
  = rendered summary question relevantCode.
Proof.
  transitivity (rendered summary question (relevantCode ++ "")).
  - vm_compute. reflexivity.
  - rewrite append_empty_r. reflexivity.
Qed.

Lemma len_append (s1 s2 : string) : len (s1 ++ s2) = len s1 + len s2.
Proof.
  unfold len. induction s1 as [|c s1 IH]; [reflexivity|].
  change (String c s1 ++ s2) with (String c (s1 ++ s2)).
  cbn [String.length]. lia.
Qed.

(** C6: [buildPrompt] renders the template with the three fields put in
    as they are; it fails, with the token-limit error and no prompt,
    exactly when the rendered text is longer than 80000 bytes, and
    otherwise returns the rendered text itself. *)
Theorem buildPrompt_renders_or_rejects t summary question relevantCode :
  let prompt := rendered summary question relevantCode in
  (buildPrompt t summary question relevantCode
   = (if 80000 <? len prompt
      then ("", Some (errorString "prompt exceeds 20,000 token limit"))
      else (prompt, None))) /\
  ((buildPrompt t summary question relevantCode).2 <> None <-> 80000 < len prompt) /\
  ((buildPrompt t summary question relevantCode).2 = None <->
   ((buildPrompt t summary question relevantCode).1 = prompt /\ len prompt <= 80000)) /\
  (len prompt = 118 + len summary + len question + len relevantCode).
Proof.
  cbv zeta. unfold buildPrompt. rewrite Sprintf_promptTemplate.
  assert (L : len (rendered summary question relevantCode)
              = 118 + len summary + len question + len relevantCode).
  { unfold rendered. rewrite !len_append. unfold nl. vm_compute (len (String _ _)).
    repeat match goal with |- context [len (String ?c ?r)] =>
      let v := eval vm_compute in (len (String c r)) in
      change (len (String c r)) with v end.
    lia. }
  split; [reflexivity|].
  destruct (80000 <? len (rendered summary question relevantCode)) eqn:E;
    [apply Z.ltb_lt in E | apply Z.ltb_ge in E]; cbn [fst snd].
  - split; [split; [intros _; exact E | discriminate]|].
    split; [split; [discriminate | intros [_ H]; lia]|]. exact L.
  - split; [split; [congruence | lia]|].
    split; [split; [intros _; split; [reflexivity | exact E] | reflexivity]|]. exact L.
Qed.

(** The theorem at the input of the repository's token-limit test: a
    summary of 85000 bytes is rejected. *)
Lemma buildPrompt_renders_or_rejects_witness :
  80000 < len (rendered (strings_Repeat "a" (Z.to_nat 85000)) "test" "test") /\
  (buildPrompt defaultTool (strings_Repeat "a" (Z.to_nat 85000)) "test" "test").2 <> None.
Proof.
  assert (H : 80000 < len (rendered (strings_Repeat "a" (Z.to_nat 85000)) "test" "test")).
  { vm_compute. reflexivity. }
  split; [exact H|].
  apply (proj2 (proj1 (proj2 (buildPrompt_renders_or_rejects defaultTool
                                (strings_Repeat "a" (Z.to_nat 85000)) "test" "test")))).
  exact H.
Defined.

(* ===================================================================== *)
(** ** Argument checking in Call *)
(* ===================================================================== *)

Lemma Call_rejects t arguments w :
  (assertString (arguments !! "question")).1 = "" \/
  (assertString (arguments !! "summary")).1 = "" ->
  GetHelpTool_Call t arguments w = (Ok missingFieldsReply, w).
Proof.
  intros H. unfold GetHelpTool_Call.
  destruct (assertString (arguments !! "question")) as [q [|]];
    destruct (assertString (arguments !! "summary")) as [s [|]];
    cbn [fst] in H; destruct H as [->| ->];
    rewrite ?String.eqb_refl, ?orb_true_r; reflexivity.
Qed.

Lemma assertString_absentOrEmpty x : absentOrEmpty x -> (assertString x).1 = "".
Proof. intros [->| ->]; reflexivity. Qed.

Lemma assertString_nonString x : nonString x -> (assertString x).1 = "".
Proof.
  intros (v & -> & Hv). destruct v; try reflexivity. exfalso. eapply Hv. reflexivity.
Qed.

(** C5: when [question] or [summary] is absent or empty, [Call] returns
    at once the missing-required-fields error with one text block that
    says so, and the world is as it was: no file was opened, no upstream
    call made, nothing logged. *)
Theorem Call_missing_required_fields t arguments w :
  absentOrEmpty (arguments !! "question") \/ absentOrEmpty (arguments !! "summary") ->
  GetHelpTool_Call t arguments w
  = (Ok ([textBlock "Error: Missing required fields: question and summary"],
         Some (errorString "missing required fields")), w).
Proof.
  intros H. apply Call_rejects.
  destruct H as [H|H]; [left|right]; apply assertString_absentOrEmpty, H.
Qed.

(** The theorem at the input of the repository's test: only a summary. *)
Lemma Call_missing_required_fields_witness :
  GetHelpTool_Call defaultTool {[ "summary" := VString "test summary" ]}
    (startWorld (scripted []))
  = (Ok ([textBlock "Error: Missing required fields: question and summary"],
         Some (errorString "missing required fields")), startWorld (scripted [])).
Proof.
  apply (Call_missing_required_fields defaultTool
           {[ "summary" := VString "test summary" ]} (startWorld (scripted []))).
  left. left. vm_compute. reflexivity.
Defined.

(** C10: when [question] or [summary] is bound to a value that is not a
    string, [Call] answers as for an absent field: the same error, the
    same text block, the world untouched. *)
Theorem Call_non_string_field t arguments w :
  nonString (arguments !! "question") \/ nonString (arguments !! "summary") ->
  GetHelpTool_Call t arguments w
  = (Ok ([textBlock "Error: Missing required fields: question and summary"],
         Some (errorString "missing required fields")), w).
Proof.
  intros H. apply Call_rejects.
  destruct H as [H|H]; [left|right]; apply assertString_nonString, H.
Qed.

(** The theorem at a request whose question is the number 42 (a decoded
    JSON number is a float64; these are the bits of 42.0). *)
Lemma Call_non_string_field_witness :
  GetHelpTool_Call defaultTool
    {[ "question" := VNumber 4631107791820423168;
       "summary" := VString "test summary" ]}
    (startWorld (scripted []))
  = (Ok ([textBlock "Error: Missing required fields: question and summary"],
         Some (errorString "missing required fields")), startWorld (scripted [])).
Proof.
  apply (Call_non_string_field defaultTool
           {[ "question" := VNumber 4631107791820423168;
       "summary" := VString "test summary" ]}
           (startWorld (scripted []))).
  left. exists (VNumber 4631107791820423168). split; [vm_compute; reflexivity | discriminate].
Defined.

(* ===================================================================== *)
(** ** The dispatcher *)
(* ===================================================================== *)

Lemma GetHelpTool_Call_returns t arguments w :
  exists r w', GetHelpTool_Call t arguments w = (Ok r, w').
Proof.
  unfold GetHelpTool_Call.
  destruct (_ || _); [unfold ret; eauto|].
  unfold bind at 1.
  destruct (loadSummary t w) as [[[projectSummary [e|]]|msg] w1] eqn:EL.
  - unfold bind, log_Printf, ret. eauto.
  - destruct (buildPrompt t projectSummary _ _) as [prompt [e|]].
    + unfold bind, log_Printf, ret. eauto.
    + unfold bind at 1, log_Println, log_Printf.
      unfold bind at 1, context_WithTimeout.
      unfold bind at 1.
      match goal with |- context [askOpenAI ?t ?c ?p ?w] =>
        destruct (askOpenAI_returns t c p w) as ([ans [e|]] & w2 & ->) end.
      * unfold bind, log_Printf, ret. eauto.
      * unfold bind, time_Now, log_Printf, ret. eauto.
  - exfalso. unfold loadSummary, bind, os_Open in EL.
    cbn in EL. destruct (files w _) as [?|[?|?]]; discriminate EL.
Qed.

Lemma getHelpServer_toolsReturn : toolsReturn getHelpServer.
Proof.
  intros name tool arguments w H. unfold getHelpServer, RegisterTool, NewMCPServer in H.
  cbn [tools] in H. apply lookup_insert_Some in H as [[_ <-]|[_ H]].
  - apply GetHelpTool_Call_returns.
  - rewrite lookup_empty in H. discriminate H.
Qed.

Section DispatcherProperties.

Variable json_Unmarshal_callParams : RawMessage -> error + callParams.

(** [HandleToolsCall] returns a result or an error, never both and never
    neither, when the tool it calls returns. *)
Lemma HandleToolsCall_one_of s params w :
  toolsReturn s ->
  exists result errorResp w',
    HandleToolsCall json_Unmarshal_callParams s params w
    = (Ok (result, errorResp), w') /\
    ((result <> None /\ errorResp = None) \/ (result = None /\ errorResp <> None)).
Proof.
  intros Ht. unfold HandleToolsCall.
  destruct (json_Unmarshal_callParams params) as [err|cp].
  - unfold bind, log_Printf, ret. do 3 eexists. split; [reflexivity|]. right. easy.
  - destruct (tools s !! cp_Name cp) as [tool|] eqn:El.
    + unfold bind at 1.
      destruct (Ht _ _ (cp_Arguments cp) w El) as ([content [e|]] & w1 & ->).
      * unfold bind, log_Printf, ret. do 3 eexists. split; [reflexivity|]. left. easy.
      * unfold ret. do 3 eexists. split; [reflexivity|]. left. easy.
    + unfold bind, log_Printf, ret. do 3 eexists. split; [reflexivity|]. right. easy.
Qed.

(** C4: for a request whose method is [initialize], [tools/list] or
    [tools/call], [ProcessRequest] returns one response; its id is the
    request's id, and exactly one of its result and error is set.  (The
    tools of the registry are taken to return from [Call].) *)
Theorem ProcessRequest_result_xor_error s req w :
  recognized (JsonRPCRequest.Method req) ->
  toolsReturn s ->
  exists resp w',
    ProcessRequest json_Unmarshal_callParams s req w = (Ok resp, w') /\
    JsonRPCResponse.ID resp = JsonRPCRequest.ID req /\
    JsonRPCResponse.Jsonrpc resp = "2.0" /\
    resultXorError resp.
Proof.
  intros Hm Ht. unfold ProcessRequest, resultXorError.
  unfold bind at 1, time_Now. unfold bind at 1, log_Printf.
  destruct Hm as [-> | [-> | ->]]; cbn [String.eqb Ascii.eqb Bool.eqb andb].
  - unfold bind, log_Println, log_Printf, ret. do 2 eexists.
    split; [reflexivity|]. cbn. split; [reflexivity|]. split; [reflexivity|]. left. easy.
  - unfold bind, log_Println, log_Printf, ret. do 2 eexists.
    split; [reflexivity|]. cbn. split; [reflexivity|]. split; [reflexivity|]. left. easy.
  - unfold bind at 1, log_Println, log_Printf. unfold bind at 1.
    match goal with |- context [HandleToolsCall _ s ?p ?w0] =>
      destruct (HandleToolsCall_one_of s p w0 Ht)
        as (result & errorResp & w1 & -> & [[Hr ->]|[-> He]]) end.
    + destruct result as [fields|]; [|congruence].
      unfold ret. do 2 eexists. split; [reflexivity|]. cbn.
      split; [reflexivity|]. split; [reflexivity|]. left. easy.
    + destruct errorResp as [e|]; [|congruence].
      unfold ret. do 2 eexists. split; [reflexivity|]. cbn.
      split; [reflexivity|]. split; [reflexivity|]. right. easy.
Qed.

(** C9: a [tools/call] request that names a tool the registry does not
    hold is answered with the protocol error -32602 "Unknown tool" and no
    result; the response carries the request's id; nothing happened but
    three log lines: no tool was called. *)
Theorem ProcessRequest_unknown_tool s req w cp :
  JsonRPCRequest.Method req = "tools/call" ->
  json_Unmarshal_callParams (JsonRPCRequest.Params req) = inr cp ->
  tools s !! cp_Name cp = None ->
  ProcessRequest json_Unmarshal_callParams s req w
  = (Ok {| JsonRPCResponse.Jsonrpc := "2.0";
           JsonRPCResponse.ID := JsonRPCRequest.ID req;
           JsonRPCResponse.Result := None;
           JsonRPCResponse.Error := Some (VObject unknownToolError) |},
     withLog w
       [ {| logFormat := "[%s] Got JSON-RPC request: method=%s, id=%d";
            logArgs := [LTime (now w); LStr "tools/call"; LInt (JsonRPCRequest.ID req)] |};
         {| logFormat := "Handling tools/call"; logArgs := [] |};
         {| logFormat := "Unknown tool: %s"; logArgs := [LStr (cp_Name cp)] |} ]).
Proof.
  intros Hm Hp Hl. unfold ProcessRequest, HandleToolsCall.
  rewrite Hm, Hp, Hl. cbn [String.eqb Ascii.eqb Bool.eqb andb].
  unfold bind, time_Now, log_Println, log_Printf, ret, withLog. cbn.
  rewrite <- !app_assoc. reflexivity.
Qed.

End DispatcherProperties.

(* ===================================================================== *)
(** ** The HTTP handler *)
(* ===================================================================== *)

(** C7, counterexample: a POST whose body does not decode is answered
    with status 400 and the plain text [malformed request], not with a
    JSON object. *)
Lemma HandleHTTP_malformed_body_is_plain_text :
  tableDecoder (A := gmap string value) [] (http.Body postInvalidJSON)
    = inl (SyntaxError "invalid character") /\
  exists rw w',
    HandleHTTP (tableDecoder []) plainMarshal getHelpServer http.NewRecorder
      postInvalidJSON (startWorld (scripted [])) = (Ok rw, w') /\
    reply rw = (400, plainText, "malformed request" ++ nl) /\
    ~ malformedJSONReply rw.
Proof.
  split; [reflexivity|]. do 2 eexists. split; [vm_compute; reflexivity|].
  split; [reflexivity|]. intros [_ [H|H]]; vm_compute in H; discriminate H.
Qed.

Section HTTPProperties.

Variable json_Decode_arguments : string -> error + gmap string value.
Variable json_Marshal : value -> string.

(** C7, as amended: the replies of the handler.  Any method but POST:
    405.  A body that does not decode: 400 with the plain text
    [malformed request].  No [get_help] tool registered: 503 with
    [{"error":"Tool not available"}].  The tool fails: 503 with the fixed
    JSON error text.  The tool succeeds and its first content block is a
    text block: 200 with the JSON encoding of [{"answer": text}].  The
    tool succeeds with no block or with a first block that is not a text
    block: 200 with an empty body.  No other status is written. *)
Theorem HandleHTTP_replies s r w :
  (http.Method r <> "POST" ->
   exists rw w', HandleHTTP json_Decode_arguments json_Marshal s http.NewRecorder r w
                 = (Ok rw, w') /\
     reply rw = (405, plainText, "Method not allowed" ++ nl)) /\
  (forall err,
     http.Method r = "POST" -> json_Decode_arguments (http.Body r) = inl err ->
     exists rw w', HandleHTTP json_Decode_arguments json_Marshal s http.NewRecorder r w
                   = (Ok rw, w') /\
       reply rw = (400, plainText, "malformed request" ++ nl)) /\
  (forall arguments,
     http.Method r = "POST" -> json_Decode_arguments (http.Body r) = inr arguments ->
     tools s !! "get_help" = None ->
     exists rw w', HandleHTTP json_Decode_arguments json_Marshal s http.NewRecorder r w
                   = (Ok rw, w') /\
       reply rw = (503, plainText, jsonMember "error" "Tool not available" ++ nl)) /\
  (forall arguments tool content e w1,
     http.Method r = "POST" -> json_Decode_arguments (http.Body r) = inr arguments ->
     tools s !! "get_help" = Some tool ->
     Call tool arguments (atToolCall w) = (Ok (content, Some e), w1) ->
     exists rw w', HandleHTTP json_Decode_arguments json_Marshal s http.NewRecorder r w
                   = (Ok rw, w') /\
       reply rw = (503, plainText, jsonMember "error" unavailableText ++ nl)) /\
  (forall arguments tool c0 rest text w1,
     http.Method r = "POST" -> json_Decode_arguments (http.Body r) = inr arguments ->
     tools s !! "get_help" = Some tool ->
     Call tool arguments (atToolCall w) = (Ok (c0 :: rest, None), w1) ->
     c0 !! "type" = Some (VString "text") -> c0 !! "text" = Some (VString text) ->
     HandleHTTP json_Decode_arguments json_Marshal s http.NewRecorder r w
     = (Ok (http.Write (http.Set_ http.NewRecorder "Content-Type" "application/json")
              (json_Marshal (VObject {[ "answer" := VString text ]}) ++ nl)), w1) /\
     reply (http.Write (http.Set_ http.NewRecorder "Content-Type" "application/json")
              (json_Marshal (VObject {[ "answer" := VString text ]}) ++ nl))
     = (200, Some "application/json",
        json_Marshal (VObject {[ "answer" := VString text ]}) ++ nl)) /\
  (forall arguments tool content w1,
     http.Method r = "POST" -> json_Decode_arguments (http.Body r) = inr arguments ->
     tools s !! "get_help" = Some tool ->
     Call tool arguments (atToolCall w) = (Ok (content, None), w1) ->
     firstIsText content = false ->
     HandleHTTP json_Decode_arguments json_Marshal s http.NewRecorder r w
     = (Ok http.NewRecorder, w1) /\
     reply http.NewRecorder = (200, None, "")) /\
  (forall rw w',
     HandleHTTP json_Decode_arguments json_Marshal s http.NewRecorder r w = (Ok rw, w') ->
     http.Code rw = 200 \/ http.Code rw = 400 \/ http.Code rw = 405 \/ http.Code rw = 503).
Proof.
  unfold HandleHTTP, atToolCall, withLog, bind, log_Println, log_Printf, ret, panic.
  cbv beta iota.
  repeat apply conj.
  - intros Hm. apply String.eqb_neq in Hm. unfold http.MethodPost. rewrite Hm.
    cbn [negb]. do 2 eexists. split; reflexivity.
  - intros err -> Hd. rewrite Hd. cbn [String.eqb Ascii.eqb Bool.eqb negb andb http.MethodPost].
    do 2 eexists. split; reflexivity.
  - intros arguments -> Hd Hn. rewrite Hd, Hn.
    cbn [String.eqb Ascii.eqb Bool.eqb negb andb http.MethodPost].
    do 2 eexists. split; reflexivity.
  - intros arguments tool content e w1 -> Hd Ht Hc. rewrite Hd, Ht.
    cbn [String.eqb Ascii.eqb Bool.eqb negb andb http.MethodPost].
    rewrite Hc. do 2 eexists. split; reflexivity.
  - intros arguments tool c0 rest text w1 -> Hd Ht Hc Hty Htx. rewrite Hd, Ht.
    cbn [String.eqb Ascii.eqb Bool.eqb negb andb http.MethodPost].
    rewrite Hc, Hty, Htx.
    cbn [isString String.eqb Ascii.eqb Bool.eqb andb]. split; reflexivity.
  - intros arguments tool content w1 -> Hd Ht Hc Hf. rewrite Hd, Ht.
    cbn [String.eqb Ascii.eqb Bool.eqb negb andb http.MethodPost].
    rewrite Hc.
    destruct content as [|c0 rest]; [split; reflexivity|].
    cbn [firstIsText] in Hf. rewrite Hf. split; reflexivity.
  - intros rw w'.
    destruct (negb (String.eqb (http.Method r) http.MethodPost)).
    { intros [= <- _]. right. right. left. reflexivity. }
    destruct (json_Decode_arguments (http.Body r)) as [err|arguments].
    { intros [= <- _]. right. left. reflexivity. }
    destruct (tools s !! "get_help") as [tool|].
    2: { intros [= <- _]. right. right. right. reflexivity. }
    destruct (Call tool arguments _) as [[[content [e|]]|msg] w1].
    + intros [= <- _]. right. right. right. reflexivity.
    + destruct content as [|c0 rest]; [intros [= <- _]; left; reflexivity|].
      destruct (isString (c0 !! "type") "text");
        [|intros [= <- _]; left; reflexivity].
      destruct (c0 !! "text") as [[| | | |text| |]|];
        intros [= <- _]; left; reflexivity.
    + discriminate.
Qed.

End HTTPProperties.

(* ===================================================================== *)
(** ** The stdio loop *)
(* ===================================================================== *)

Section StdioProperties.

Variable json_Unmarshal_callParams : RawMessage -> error + callParams.

(** One turn of the loop. *)
Lemma RunStdio_loop_step fuel s decoder encoder w :
  RunStdio_loop json_Unmarshal_callParams (S fuel) s decoder encoder w
  = let decoder' := {| stream := stream decoder; offset := S (offset decoder) |} in
    match stream decoder (offset decoder) with
    | DecodeEOF => (Ok (Finished, decoder, encoder), w)
    | DecodeError err =>
        RunStdio_loop json_Unmarshal_callParams fuel s
          (if keptByDecoder err then decoder else decoder') encoder
          (withLog w [decodeErrorLine err])
    | DecodeOK req =>
        match ProcessRequest json_Unmarshal_callParams s req w with
        | (Ok resp, w1) =>
            match encodeError encoder resp with
            | Some e =>
                RunStdio_loop json_Unmarshal_callParams fuel s decoder' encoder
                  (withLog w1 [{| logFormat := "Failed to write JSON-RPC response: %v";
                                  logArgs := [LErr e] |}])
            | None =>
                RunStdio_loop json_Unmarshal_callParams fuel s decoder'
                  {| encodeError := encodeError encoder;
                     written := written encoder ++ [resp] |} w1
            end
        | (Panic msg, w1) => (Panic msg, w1)
        end
    end.
Proof.
  cbn [RunStdio_loop]. unfold Decode, Encode, bind, log_Printf, ret, withLog, decodeErrorLine.
  destruct (stream decoder (offset decoder)); try reflexivity.
  destruct (ProcessRequest json_Unmarshal_callParams s req w) as [[resp|msg] w1];
    [|reflexivity].
  destruct (encodeError encoder resp); reflexivity.
Qed.

Lemma withLog_nil w : withLog w [] = w.
Proof. unfold withLog. rewrite app_nil_r. destruct w; reflexivity. Qed.

Lemma withLog_withLog w l1 l2 : withLog (withLog w l1) l2 = withLog w (l1 ++ l2).
Proof. unfold withLog. cbn. rewrite <- app_assoc. reflexivity. Qed.

(** At an error the decoder keeps, the loop turns for as long as it is
    let: it logs the error at every turn, and nothing else happens. *)
Lemma RunStdio_loop_stuck s decoder encoder err :
  stream decoder (offset decoder) = DecodeError err ->
  keptByDecoder err = true ->
  forall fuel w,
    RunStdio_loop json_Unmarshal_callParams fuel s decoder encoder w
    = (Ok (OutOfFuel, decoder, encoder),
       withLog w (replicate fuel (decodeErrorLine err))).
Proof.
  intros Hs Hk. induction fuel as [|fuel IH]; intros w.
  - cbn [RunStdio_loop replicate]. unfold ret. rewrite withLog_nil. reflexivity.
  - rewrite RunStdio_loop_step. cbv zeta. rewrite Hs, Hk, IH, withLog_withLog.
    reflexivity.
Qed.

End StdioProperties.

(** C8, evaluated on the code: the input holds the line [hello] and then
    an [initialize] request.  [Decode] reports a syntax error, which the
    decoder keeps; the loop logs it and goes round again, for ever: after
    any number of turns it has not returned, has written no response, has
    not moved past the first line (the request is never read, the end of
    the input never reached) and has done nothing but log the error once
    per turn. *)
Theorem RunStdio_spins_on_malformed_line :
  keptByDecoder invalidCharacter = true /\
  forall fuel,
    exists decoder encoder w',
      RunStdio testUnmarshal fuel getHelpServer helloThenInitialize stdoutOK answeringWorld
      = (Ok (OutOfFuel, decoder, encoder), w') /\
      offset decoder = 0%nat /\
      written encoder = [] /\
      w' = withLog answeringWorld (replicate fuel (decodeErrorLine invalidCharacter)).
Proof.
  split; [reflexivity|]. intros fuel. unfold RunStdio.
  rewrite (RunStdio_loop_stuck testUnmarshal getHelpServer
             (NewDecoder helloThenInitialize) (NewEncoder stdoutOK) invalidCharacter
             eq_refl eq_refl fuel answeringWorld).
  do 3 eexists. repeat split; reflexivity.
Qed.

(* ===================================================================== *)
(** ** The theorems at concrete requests *)
(* ===================================================================== *)

(** C4 at a [tools/call] of [get_help] with id 7. *)
Lemma ProcessRequest_result_xor_error_witness :
  exists resp w',
    ProcessRequest testUnmarshal getHelpServer (toolsCall 7 "get_help") answeringWorld
    = (Ok resp, w') /\
    JsonRPCResponse.ID resp = 7 /\
    JsonRPCResponse.Jsonrpc resp = "2.0" /\
    resultXorError resp.
Proof.
  apply (ProcessRequest_result_xor_error testUnmarshal getHelpServer
           (toolsCall 7 "get_help") answeringWorld).
  - right. right. reflexivity.
  - exact getHelpServer_toolsReturn.
Defined.

(** C9 at a [tools/call] of [no_such_tool] with id 9. *)
Lemma ProcessRequest_unknown_tool_witness :
  ProcessRequest testUnmarshal getHelpServer (toolsCall 9 "no_such_tool") answeringWorld
  = (Ok {| JsonRPCResponse.Jsonrpc := "2.0";
           JsonRPCResponse.ID := 9;
           JsonRPCResponse.Result := None;
           JsonRPCResponse.Error := Some (VObject unknownToolError) |},
     withLog answeringWorld
       [ {| logFormat := "[%s] Got JSON-RPC request: method=%s, id=%d";
            logArgs := [LTime 0; LStr "tools/call"; LInt 9] |};
         {| logFormat := "Handling tools/call"; logArgs := [] |};
         {| logFormat := "Unknown tool: %s"; logArgs := [LStr "no_such_tool"] |} ]).
Proof.
  apply (ProcessRequest_unknown_tool testUnmarshal getHelpServer
           (toolsCall 9 "no_such_tool") answeringWorld
           {| cp_Name := "no_such_tool"; cp_Arguments := testArguments |}).
  - reflexivity.
  - vm_compute. reflexivity.
  - vm_compute. reflexivity.
Defined.

(** C7 at the end-to-end example: the POST of the test arguments, with an
    upstream that answers, gets 200 and the answer as JSON. *)
Lemma HandleHTTP_replies_witness :
  exists w1,
    HandleHTTP testDecode plainMarshal getHelpServer http.NewRecorder
      {| http.Method := "POST"; http.Body := testArgumentsText |} answeringWorld
    = (Ok (http.Write (http.Set_ http.NewRecorder "Content-Type" "application/json")
             (plainMarshal (VObject {[ "answer" := VString "Use table-driven tests." ]})
              ++ nl)), w1) /\
    reply (http.Write (http.Set_ http.NewRecorder "Content-Type" "application/json")
             (plainMarshal (VObject {[ "answer" := VString "Use table-driven tests." ]})
              ++ nl))
    = (200, Some "application/json",
       plainMarshal (VObject {[ "answer" := VString "Use table-driven tests." ]}) ++ nl).
Proof.
  eexists.
  eapply (proj1 (proj2 (proj2 (proj2 (proj2
            (HandleHTTP_replies testDecode plainMarshal getHelpServer
               {| http.Method := "POST"; http.Body := testArgumentsText |}
               answeringWorld)))))
          testArguments (GetHelpTool_Tool defaultTool)
          (textBlock "Use table-driven tests.") []).
  - reflexivity.
  - vm_compute. reflexivity.
  - vm_compute. reflexivity.
  - vm_compute. reflexivity.
  - vm_compute. reflexivity.
  - vm_compute. reflexivity.
Defined.

(* ===================================================================== *)
(** ** Call past validation *)
(* ===================================================================== *)

(** [Call] with valid fields, step by step. *)
Lemma Call_past_validation t arguments q s w :
  validFields arguments q s ->
  GetHelpTool_Call t arguments w =
  match files w (summaryFile t) with
  | inl e | inr (inl e) =>
      unavailable e "Couldn't load the summary file: %v" (withOpened w (summaryFile t))
  | inr (inr content) =>
      match buildPrompt t content q (relevantCodeOf arguments) with
      | (_, Some e) =>
          unavailable e "Couldn't build the prompt: %v" (withOpened w (summaryFile t))
      | (prompt, None) =>
          match askOpenAI t (callContext w) prompt (atUpstreamCall t w) with
          | (Ok (_, Some e), w2) => unavailable e "OpenAI call failed: %v" w2
          | (Ok (text, None), w2) =>
              (Ok ([textBlock text], None),
               withLog w2 [{| logFormat := "[%s] OpenAI call completed successfully";
                              logArgs := [LTime (now w2)] |}])
          | (Panic msg, w2) => (Panic msg, w2)
          end
      end
  end.
Proof.
  intros (Hq & Hqn & Hs & Hsn). unfold GetHelpTool_Call, relevantCodeOf.
  rewrite Hq, Hs. cbn [assertString].
  apply String.eqb_neq in Hqn, Hsn. rewrite Hqn, Hsn. cbn [orb].
  unfold bind at 1, loadSummary. fold (summaryFile t).
  unfold bind at 1, os_Open, io_ReadAll. cbv beta iota.
  unfold unavailable, atUpstreamCall, callContext, withLog, withOpened, os_Open.
  cbn [snd now files environ upstream opened requests slept logged].
  destruct (files w (summaryFile t)) as [e|[e|content]]; try reflexivity.
  unfold ret at 1. cbv beta iota.
  destruct (arguments !! "relevant_code") as [[| | | |rc| |]|];
    cbn [assertString fst];
    (match goal with |- context [buildPrompt ?t ?c ?q ?r] =>
       destruct (buildPrompt t c q r) as [prompt [e|]] end; [reflexivity|]);
    unfold bind at 1, log_Println, log_Printf; cbv beta iota;
    unfold bind at 1, context_WithTimeout; cbv beta iota;
    unfold bind at 1;
    cbn [snd now files environ upstream opened requests slept logged
         Deadline context_Background];
    (match goal with |- context [askOpenAI ?t ?c ?p ?w0] =>
       destruct (askOpenAI t c p w0) as [[[text [e|]]|msg] w2] end);
    reflexivity.
Qed.

(** What [askOpenAI] leaves alone, and what it adds to the calls made. *)
Lemma askOpenAI_frame t ctx prompt w :
  exists r w',
    askOpenAI t ctx prompt w = (Ok r, w') /\
    sameSurroundings w w' /\
    opened w' = opened w /\
    logged w' = logged w /\
    (exists k, (1 <= k <= 3)%nat /\
               (drop (length (requests w)) (requests w')).*2
               = replicate k (chatRequest t prompt)).
Proof.
  rewrite askOpenAI_unrolled.
  assert (F1 : forall w0, let w1 := afterAttempt t ctx prompt w0 in
            sameSurroundings w0 w1 /\ opened w1 = opened w0 /\ logged w1 = logged w0 /\
            requests w1 = (requests w0 ++ [(now w0, chatRequest t prompt)])%list).
  { intros w0. cbv zeta. unfold sameSurroundings, afterAttempt, CreateChatCompletion.
    cbn. repeat split; reflexivity. }
  assert (F2 : forall d w0, let w1 := afterSleep d w0 in
            sameSurroundings w0 w1 /\ opened w1 = opened w0 /\ logged w1 = logged w0 /\
            requests w1 = requests w0).
  { intros d w0. cbv zeta. unfold sameSurroundings, afterSleep, time_Sleep.
    cbn. repeat split; reflexivity. }
  pose proof (F1 w) as (S1 & O1 & L1 & R1).
  pose proof (F2 (2 * Second) (afterAttempt t ctx prompt w)) as (S2 & O2 & L2 & R2).
  fold (retry1 t ctx prompt w) in S2, O2, L2, R2.
  pose proof (F1 (retry1 t ctx prompt w)) as (S3 & O3 & L3 & R3).
  pose proof (F2 (4 * Second) (afterAttempt t ctx prompt (retry1 t ctx prompt w)))
    as (S4 & O4 & L4 & R4).
  fold (retry2 t ctx prompt w) in S4, O4, L4, R4.
  pose proof (F1 (retry2 t ctx prompt w)) as (S5 & O5 & L5 & R5).
  unfold sameSurroundings in *.
  destruct (attempt t ctx prompt w) as [? [?|?]].
  2: { do 2 eexists. split; [reflexivity|]. split; [exact S1|].
       split; [exact O1|]. split; [exact L1|]. exists 1%nat. split; [lia|].
       rewrite R1, drop_app_length. reflexivity. }
  cbv zeta. fold (retry1 t ctx prompt w).
  destruct (attempt t ctx prompt (retry1 t ctx prompt w)) as [? [?|?]].
  2: { do 2 eexists. split; [reflexivity|].
       split; [intuition congruence|]. split; [congruence|]. split; [congruence|].
       exists 2%nat. split; [lia|].
       rewrite R3, R2, R1, <- app_assoc, drop_app_length. reflexivity. }
  fold (retry2 t ctx prompt w).
  assert (R : requests (afterAttempt t ctx prompt (retry2 t ctx prompt w))
              = (requests w ++ [(now w, chatRequest t prompt);
                                (now (retry1 t ctx prompt w), chatRequest t prompt);
                                (now (retry2 t ctx prompt w), chatRequest t prompt)])%list).
  { rewrite R5, R4, R3, R2, R1, <- !app_assoc. reflexivity. }
  destruct (attempt t ctx prompt (retry2 t ctx prompt w)) as [? [?|?]];
    do 2 eexists; (split; [reflexivity|]);
    (split; [intuition congruence|]); (split; [congruence|]); (split; [congruence|]);
    exists 3%nat; (split; [lia|]); rewrite R, drop_app_length; reflexivity.
Qed.

Lemma len_rendered summary question relevantCode :
  len (rendered summary question relevantCode)
  = 118 + len summary + len question + len relevantCode.
Proof.
  unfold rendered. rewrite !len_append. unfold nl.
  repeat match goal with |- context [len (String ?c ?r)] =>
    let v := eval vm_compute in (len (String c r)) in
    change (len (String c r)) with v end.
  lia.
Qed.

(** [buildPrompt] by the size of its operands. *)
Lemma buildPrompt_by_size t summary question relevantCode :
  buildPrompt t summary question relevantCode
  = if 79882 <? len summary + len question + len relevantCode
    then ("", Some (errorString "prompt exceeds 20,000 token limit"))
    else (rendered summary question relevantCode, None).
Proof.
  unfold buildPrompt. rewrite Sprintf_promptTemplate, len_rendered.
  destruct (79882 <? _) eqn:E1; destruct (80000 <? _) eqn:E2; try reflexivity;
    [apply Z.ltb_lt in E1; apply Z.ltb_ge in E2 | apply Z.ltb_ge in E1; apply Z.ltb_lt in E2];
    lia.
Qed.

Lemma textBlock_text text : textBlock text !! "text" = Some (VString text).
Proof. unfold textBlock. rewrite lookup_insert_ne by discriminate. apply lookup_insert_eq. Qed.

Lemma textBlock_inj a b : textBlock a = textBlock b -> a = b.
Proof.
  intros H. apply (f_equal (fun m => m !! "text")) in H.
  rewrite !textBlock_text in H. congruence.
Qed.

Lemma reply_text_inj a b (e1 e2 : option error) (w1 w2 : World) :
  (Ok ([textBlock a], e1), w1) = (Ok ([textBlock b], e2), w2) -> a = b.
Proof. intros H. apply textBlock_inj. congruence. Qed.

(** The fields are valid, or one of them reads as empty. *)
Lemma fields_valid_or_missing (arguments : gmap string value) :
  (exists q s, validFields arguments q s) \/
  (assertString (arguments !! "question")).1 = "" \/
  (assertString (arguments !! "summary")).1 = "".
Proof.
  unfold validFields.
  destruct (arguments !! "question") as [[| | | |q| |]|]; cbn; auto.
  destruct (arguments !! "summary") as [[| | | |s| |]|]; cbn; auto.
  destruct (String.eqb_spec q ""); [auto|].
  destruct (String.eqb_spec s ""); [auto|].
  left. exists q, s. auto.
Qed.

(** [Call] reads its arguments through the three fields only. *)
Lemma Call_reads_three_fields t (a b : gmap string value) w :
  assertString (a !! "question") = assertString (b !! "question") ->
  assertString (a !! "summary") = assertString (b !! "summary") ->
  assertString (a !! "relevant_code") = assertString (b !! "relevant_code") ->
  GetHelpTool_Call t a w = GetHelpTool_Call t b w.
Proof.
  intros Hq Hs Hr. unfold GetHelpTool_Call. rewrite Hq, Hs, Hr. reflexivity.
Qed.

(** X1: with valid fields [Call] first opens the summary file (the
    configured path, [./README.md] when none is configured); when the file
    cannot be opened or read it returns the fixed unavailable text with
    the file error, logs one line and makes no upstream call. *)
Theorem Call_summary_file_unreadable t arguments q s w e :
  validFields arguments q s ->
  files w (summaryFile t) = inl e \/ files w (summaryFile t) = inr (inl e) ->
  exists w',
    GetHelpTool_Call t arguments w = (Ok ([textBlock unavailableText], Some e), w') /\
    opened w' = (opened w ++ [summaryFile t])%list /\
    requests w' = requests w /\ slept w' = slept w /\ now w' = now w /\
    logged w' = (logged w ++ [{| logFormat := "Couldn't load the summary file: %v";
                                 logArgs := [LErr e] |}])%list.
Proof.
  intros Hv Hf. rewrite (Call_past_validation t arguments q s w Hv).
  destruct Hf as [-> | ->]; eexists; (split; [reflexivity|]); repeat split; reflexivity.
Qed.

(** X1 at a world without README, for the default tool. *)
Lemma Call_summary_file_unreadable_witness :
  exists w',
    GetHelpTool_Call defaultTool testArguments noReadmeWorld
    = (Ok ([textBlock unavailableText],
           Some (PathError "open" "./README.md" "no such file or directory")), w') /\
    opened w' = (opened noReadmeWorld ++ [summaryFile defaultTool])%list /\
    requests w' = requests noReadmeWorld /\ slept w' = slept noReadmeWorld /\
    now w' = now noReadmeWorld /\
    logged w' = (logged noReadmeWorld
                 ++ [{| logFormat := "Couldn't load the summary file: %v";
                        logArgs := [LErr (PathError "open" "./README.md"
                                           "no such file or directory")] |}])%list.
Proof.
  apply (Call_summary_file_unreadable defaultTool testArguments
           "How do I test this?" "Test project" noReadmeWorld).
  - repeat split; try discriminate; vm_compute; reflexivity.
  - left. reflexivity.
Defined.

(** X2: when the summary file, the question and the relevant code hold
    more than 79882 bytes together, [Call] returns the fixed unavailable
    text with the token-limit error and makes no upstream call. *)
Theorem Call_prompt_over_budget t arguments q s w content :
  validFields arguments q s ->
  files w (summaryFile t) = inr (inr content) ->
  79882 < len content + len q + len (relevantCodeOf arguments) ->
  exists w',
    GetHelpTool_Call t arguments w
    = (Ok ([textBlock unavailableText],
           Some (errorString "prompt exceeds 20,000 token limit")), w') /\
    requests w' = requests w /\ slept w' = slept w /\
    opened w' = (opened w ++ [summaryFile t])%list.
Proof.
  intros Hv Hf Hlen. rewrite (Call_past_validation t arguments q s w Hv), Hf.
  rewrite buildPrompt_by_size. apply Z.ltb_lt in Hlen. rewrite Hlen.
  eexists. split; [reflexivity|]. repeat split; reflexivity.
Qed.

(** X2 at a README of 80000 bytes. *)
Lemma Call_prompt_over_budget_witness :
  exists w',
    GetHelpTool_Call defaultTool testArguments bigReadmeWorld
    = (Ok ([textBlock unavailableText],
           Some (errorString "prompt exceeds 20,000 token limit")), w') /\
    requests w' = requests bigReadmeWorld /\ slept w' = slept bigReadmeWorld /\
    opened w' = (opened bigReadmeWorld ++ [summaryFile defaultTool])%list.
Proof.
  apply (Call_prompt_over_budget defaultTool testArguments
           "How do I test this?" "Test project" bigReadmeWorld
           (strings_Repeat "a" (Z.to_nat 80000))).
  - repeat split; try discriminate; vm_compute; reflexivity.
  - reflexivity.
  - vm_compute. reflexivity.
Defined.

(** X3: with valid fields, a readable summary file and a prompt within
    the budget, when the first upstream attempt returns a choice, [Call]
    returns one text block holding that choice's content and no error.
    The one request it sent carries the prompt rendered from the file's
    content, the question and the relevant code (not from the summary
    argument), under a deadline of three minutes from the call. *)
Theorem Call_answers_with_first_choice t arguments q s w content d resp choice rest :
  validFields arguments q s ->
  files w (summaryFile t) = inr (inr content) ->
  len content + len q + len (relevantCodeOf arguments) <= 79882 ->
  attempt t (callContext w) (rendered content q (relevantCodeOf arguments))
    (atUpstreamCall t w) = (d, inr resp) ->
  Choices resp = choice :: rest ->
  exists w',
    GetHelpTool_Call t arguments w
    = (Ok ([textBlock (Content (Message choice))], None), w') /\
    requests w'
    = (requests w
       ++ [(now w, chatRequest t (rendered content q (relevantCodeOf arguments)))])%list /\
    slept w' = slept w /\
    now w' = now w + d.
Proof.
  intros Hv Hf Hlen Ha Hc. rewrite (Call_past_validation t arguments q s w Hv), Hf.
  rewrite buildPrompt_by_size. apply Z.ltb_ge in Hlen. rewrite Hlen.
  rewrite askOpenAI_unrolled, Ha. unfold answerOf. rewrite Hc.
  eexists. split; [reflexivity|].
  unfold afterAttempt, CreateChatCompletion.
  fold (attempt t (callContext w) (rendered content q (relevantCodeOf arguments))
          (atUpstreamCall t w)).
  rewrite Ha. repeat split; reflexivity.
Qed.

(** X3 at the test arguments and an upstream that answers. *)
Lemma Call_answers_with_first_choice_witness :
  exists w',
    GetHelpTool_Call defaultTool testArguments answeringWorld
    = (Ok ([textBlock "Use table-driven tests."], None), w') /\
    requests w'
    = (requests answeringWorld
       ++ [(now answeringWorld,
            chatRequest defaultTool
              (rendered "MCP Escalator" "How do I test this?"
                 (relevantCodeOf testArguments)))])%list /\
    slept w' = slept answeringWorld /\
    now w' = now answeringWorld + 1 * Second.
Proof.
  apply (Call_answers_with_first_choice defaultTool testArguments
           "How do I test this?" "Test project" answeringWorld "MCP Escalator"
           (1 * Second)
           {| Choices := [{| Message := {| Role := "assistant";
                                           Content := "Use table-driven tests." |} |}] |}
           {| Message := {| Role := "assistant"; Content := "Use table-driven tests." |} |}
           []).
  - repeat split; try discriminate; vm_compute; reflexivity.
  - reflexivity.
  - vm_compute. discriminate.
  - vm_compute. reflexivity.
  - reflexivity.
Defined.

(** [Call] returns one text block. *)
Lemma GetHelpTool_Call_text_block t arguments w :
  exists text err w',
    GetHelpTool_Call t arguments w = (Ok ([textBlock text], err), w') /\
    (err <> None -> failureText text).
Proof.
  destruct (fields_valid_or_missing arguments) as [(q & s & Hv)|Hm].
  - rewrite (Call_past_validation t arguments q s w Hv). unfold unavailable, failureText.
    destruct (files w (summaryFile t)) as [e|[e|content]];
      [do 3 eexists; split; [reflexivity|auto].. |].
    destruct (buildPrompt t content q (relevantCodeOf arguments)) as [prompt [e|]];
      [do 3 eexists; split; [reflexivity|auto]|].
    destruct (askOpenAI_returns t (callContext w) prompt (atUpstreamCall t w))
      as ([text [e|]] & w2 & ->);
      do 3 eexists; (split; [reflexivity|]); [auto | congruence].
  - rewrite (Call_rejects t arguments w Hm). unfold missingFieldsReply, failureText.
    do 3 eexists. split; [reflexivity|auto].
Qed.

(** X4: whatever the arguments and the world, [Call] returns, with
    exactly one content block, a text block; and when it returns an error
    the block holds one of its two fixed messages, never the text of the
    error. *)
Theorem Call_single_text_block t arguments w :
  exists text err w',
    GetHelpTool_Call t arguments w = (Ok ([textBlock text], err), w') /\
    (err <> None -> failureText text).
Proof. exact (GetHelpTool_Call_text_block t arguments w). Qed.

(** X5: the text of the [summary] argument does not reach the prompt or
    the result: two calls that differ only in a non-empty summary behave
    alike. *)
Theorem Call_ignores_summary_text t (arguments : gmap string value) s1 s2 w :
  s1 <> "" -> s2 <> "" ->
  GetHelpTool_Call t (<["summary" := VString s1]> arguments) w
  = GetHelpTool_Call t (<["summary" := VString s2]> arguments) w.
Proof.
  intros H1 H2. unfold GetHelpTool_Call.
  rewrite !lookup_insert_eq.
  rewrite !(lookup_insert_ne _ "summary" "question") by discriminate.
  rewrite !(lookup_insert_ne _ "summary" "relevant_code") by discriminate.
  cbn [assertString]. apply String.eqb_neq in H1, H2. rewrite H1, H2.
  reflexivity.
Qed.

(** X5 at two summaries. *)
Lemma Call_ignores_summary_text_witness :
  GetHelpTool_Call defaultTool (<["summary" := VString "Test project"]> testArguments)
    answeringWorld
  = GetHelpTool_Call defaultTool (<["summary" := VString "another"]> testArguments)
      answeringWorld.
Proof.
  apply (Call_ignores_summary_text defaultTool testArguments "Test project" "another"
           answeringWorld); discriminate.
Defined.

(** X6: [Call] ignores every argument but its three fields, and a
    [relevant_code] that is not a string counts as none. *)
Theorem Call_ignores_other_arguments t (arguments : gmap string value) key v w :
  (key <> "question" -> key <> "summary" -> key <> "relevant_code" ->
   GetHelpTool_Call t (<[key := v]> arguments) w = GetHelpTool_Call t arguments w) /\
  ((forall s, v <> VString s) ->
   GetHelpTool_Call t (<["relevant_code" := v]> arguments) w
   = GetHelpTool_Call t (delete "relevant_code" arguments) w).
Proof.
  split.
  - intros Hq Hs Hr. apply Call_reads_three_fields;
      rewrite lookup_insert_ne by assumption; reflexivity.
  - intros Hv. apply Call_reads_three_fields.
    + rewrite lookup_insert_ne, lookup_delete_ne by discriminate. reflexivity.
    + rewrite lookup_insert_ne, lookup_delete_ne by discriminate. reflexivity.
    + rewrite lookup_insert_eq, lookup_delete_eq.
      destruct v; try reflexivity. exfalso. eapply Hv. reflexivity.
Qed.

(** X6 at an extra argument [verbose]. *)
Lemma Call_ignores_other_arguments_witness :
  GetHelpTool_Call defaultTool (<["verbose" := VBool true]> testArguments) answeringWorld
  = GetHelpTool_Call defaultTool testArguments answeringWorld.
Proof.
  apply (proj1 (Call_ignores_other_arguments defaultTool testArguments "verbose"
                  (VBool true) answeringWorld)); discriminate.
Defined.

(** X7: [Call] answers with the missing-required-fields reply exactly
    when [question] or [summary] is not a non-empty string. *)
Theorem Call_validation_exact t arguments w :
  (exists w', GetHelpTool_Call t arguments w = (Ok missingFieldsReply, w'))
  <-> ~ (exists q s, validFields arguments q s).
Proof.
  split.
  - intros (w' & E) (q & s & Hv).
    rewrite (Call_past_validation t arguments q s w Hv) in E.
    unfold unavailable, missingFieldsReply in E.
    assert (N : unavailableText
                <> "Error: Missing required fields: question and summary")
      by discriminate.
    destruct (files w (summaryFile t)) as [e|[e|content]];
      [apply reply_text_inj in E; contradiction.. |].
    destruct (buildPrompt t content q (relevantCodeOf arguments)) as [prompt [e|]];
      [apply reply_text_inj in E; contradiction|].
    destruct (askOpenAI t (callContext w) prompt (atUpstreamCall t w))
      as [[[text [e|]]|msg] w2];
      [apply reply_text_inj in E; contradiction | discriminate E | discriminate E].
  - intros Hn. exists w. apply Call_rejects.
    destruct (fields_valid_or_missing arguments) as [Hv|Hm]; [contradiction|exact Hm].
Qed.

(** X7 at arguments without a question. *)
Lemma Call_validation_exact_witness :
  exists w', GetHelpTool_Call defaultTool {[ "summary" := VString "test summary" ]}
               answeringWorld = (Ok missingFieldsReply, w').
Proof.
  apply (proj2 (Call_validation_exact defaultTool {[ "summary" := VString "test summary" ]}
                  answeringWorld)).
  intros (q & s & Hq & _). vm_compute in Hq. discriminate Hq.
Defined.

(* ===================================================================== *)
(** ** More on the retry loop and the prompt *)
(* ===================================================================== *)

(** X8: one call of [askOpenAI] sends the same request at every attempt
    (the configured model, [o3] when none is configured, and the prompt
    as the only message, from the user), between one and three times; it
    writes no log line, opens no file and leaves the files, the
    environment and the upstream as they are. *)
Theorem askOpenAI_same_request_each_attempt t ctx prompt w :
  exists r w',
    askOpenAI t ctx prompt w = (Ok r, w') /\
    sameSurroundings w w' /\
    opened w' = opened w /\
    logged w' = logged w /\
    (exists k, (1 <= k <= 3)%nat /\
               (drop (length (requests w)) (requests w')).*2
               = replicate k {| Model := if String.eqb (modelName t) "" then "o3"
                                         else modelName t;
                                Messages := [{| Role := "user"; Content := prompt |}] |}).
Proof. exact (askOpenAI_frame t ctx prompt w). Qed.

(** X9: a response at the first attempt ends the call: no retry, no
    sleep.  With no choice in it the call fails with "no response from
    OpenAI" (and is not retried); otherwise it returns the content of the
    first choice, whatever the others are. *)
Theorem askOpenAI_first_response_is_final t ctx prompt w d resp :
  attempt t ctx prompt w = (d, inr resp) ->
  exists r w',
    askOpenAI t ctx prompt w = (Ok r, w') /\
    attempts w w' = [now w] /\ delays w w' = [] /\ now w' = now w + d /\
    (Choices resp = [] -> r = ("", Some (errorString "no response from OpenAI"))) /\
    (forall c cs, Choices resp = c :: cs -> r = (Content (Message c), None)).
Proof.
  intros Ha. rewrite askOpenAI_unrolled, Ha.
  destruct (world_after_first t ctx prompt w) as (H1 & H2 & H3). rewrite Ha in H3.
  do 2 eexists. split; [reflexivity|]. split; [exact H1|]. split; [exact H2|].
  split; [exact H3|]. unfold answerOf. split.
  - intros ->. reflexivity.
  - intros c cs ->. reflexivity.
Qed.

(** X9 at an upstream whose first response has no choice. *)
Lemma askOpenAI_first_response_is_final_witness :
  exists r w',
    askOpenAI defaultTool context_Background "p" emptyAnswerWorld = (Ok r, w') /\
    attempts emptyAnswerWorld w' = [now emptyAnswerWorld] /\
    delays emptyAnswerWorld w' = [] /\
    now w' = now emptyAnswerWorld + 1 * Second /\
    (Choices {| Choices := [] |} = [] ->
     r = ("", Some (errorString "no response from OpenAI"))) /\
    (forall c cs, Choices {| Choices := [] |} = c :: cs -> r = (Content (Message c), None)).
Proof.
  apply (askOpenAI_first_response_is_final defaultTool context_Background "p"
           emptyAnswerWorld (1 * Second) {| Choices := [] |}).
  vm_compute. reflexivity.
Defined.

(** X10: when all three attempts fail, the call returns the error of the
    third attempt; the errors of the first two are dropped, the delays
    slept are 2 s and 4 s, and the third entry of the backoff table (8 s)
    is not slept. *)
Theorem askOpenAI_returns_last_error t ctx prompt w d1 e1 d2 e2 d3 e3 :
  attempt t ctx prompt w = (d1, inl e1) ->
  attempt t ctx prompt (retry1 t ctx prompt w) = (d2, inl e2) ->
  attempt t ctx prompt (retry2 t ctx prompt w) = (d3, inl e3) ->
  exists w',
    askOpenAI t ctx prompt w = (Ok ("", Some e3), w') /\
    length (attempts w w') = 3%nat /\
    delays w w' = [2 * Second; 4 * Second] /\
    now w' = now w + d1 + 2 * Second + d2 + 4 * Second + d3.
Proof.
  intros H1 H2 H3. rewrite askOpenAI_unrolled, H1. cbv zeta.
  fold (retry1 t ctx prompt w). rewrite H2.
  fold (retry2 t ctx prompt w). rewrite H3.
  eexists. split; [reflexivity|].
  destruct (world_after_third t ctx prompt w) as (Ha & Hd & Hn).
  rewrite H1, H2, H3 in *. cbn [fst] in *.
  rewrite Ha, Hd, Hn. repeat split; reflexivity.
Qed.

(** X10 at three failures 500, 502, 503. *)
Lemma askOpenAI_returns_last_error_witness :
  exists w',
    askOpenAI defaultTool context_Background "p" failingWorld
    = (Ok ("", Some (APIError 503 "third")), w') /\
    length (attempts failingWorld w') = 3%nat /\
    delays failingWorld w' = [2 * Second; 4 * Second] /\
    now w' = now failingWorld + 1 * Second + 2 * Second + 1 * Second + 4 * Second
             + 1 * Second.
Proof.
  apply (askOpenAI_returns_last_error defaultTool context_Background "p" failingWorld
           (1 * Second) (APIError 500 "first") (1 * Second) (APIError 502 "second")
           (1 * Second) (APIError 503 "third")); vm_compute; reflexivity.
Defined.

(** X11: [buildPrompt] accepts its operands exactly when they hold at
    most 79882 bytes together (the template adds 118), whatever their
    split; the tool's configuration plays no part. *)
Theorem buildPrompt_field_budget t summary question relevantCode :
  ((buildPrompt t summary question relevantCode).2 = None
   <-> len summary + len question + len relevantCode <= 79882) /\
  (forall t', buildPrompt t' summary question relevantCode
              = buildPrompt t summary question relevantCode) /\
  (len summary + len question + len relevantCode <= 79882 ->
   len (buildPrompt t summary question relevantCode).1
   = 118 + len summary + len question + len relevantCode).
Proof.
  rewrite buildPrompt_by_size.
  split; [|split].
  - destruct (79882 <? _) eqn:E; cbn [snd];
      [apply Z.ltb_lt in E | apply Z.ltb_ge in E]; split; intros H;
      try reflexivity; try discriminate; lia.
  - intros t'. rewrite buildPrompt_by_size. reflexivity.
  - intros H. apply Z.ltb_ge in H. rewrite H. cbn [fst]. apply len_rendered.
Qed.

(** X11 at the operands of the repository's prompt test. *)
Lemma buildPrompt_field_budget_witness :
  len (buildPrompt defaultTool "# Test Project" "How do I test this?" "func test() {}").1
  = 118 + len "# Test Project" + len "How do I test this?" + len "func test() {}".
Proof.
  apply (proj2 (proj2 (buildPrompt_field_budget defaultTool "# Test Project"
                         "How do I test this?" "func test() {}"))).
  vm_compute. discriminate.
Defined.

(* ===================================================================== *)
(** ** The registry *)
(* ===================================================================== *)

Lemma registerAll_serverInfo ts : forall s,
  serverInfo (registerAll s ts) = serverInfo s.
Proof.
  induction ts as [|tool ts IH]; intros s; [reflexivity|].
  cbn [registerAll foldl]. fold (registerAll (RegisterTool s tool) ts).
  rewrite IH. reflexivity.
Qed.

Lemma registerAll_keeps_keyedByName ts : forall s,
  keyedByName s -> keyedByName (registerAll s ts).
Proof.
  induction ts as [|tool ts IH]; intros s Hs; [exact Hs|].
  cbn [registerAll foldl]. fold (registerAll (RegisterTool s tool) ts).
  apply IH. intros key tool' H. unfold RegisterTool in H. cbn [tools] in H.
  apply lookup_insert_Some in H as [[<- <-]|[_ H]]; [reflexivity|].
  apply Hs, H.
Qed.

(** X12: after [RegisterTool] the tool is found under its name, the
    other names are as before, the server info is untouched, and a tool
    registered under a name already taken replaces the earlier one. *)
Theorem RegisterTool_lookup s tool :
  tools (RegisterTool s tool) !! Name tool = Some tool /\
  (forall key, key <> Name tool ->
     tools (RegisterTool s tool) !! key = tools s !! key) /\
  serverInfo (RegisterTool s tool) = serverInfo s /\
  (forall earlier, Name earlier = Name tool ->
     RegisterTool (RegisterTool s earlier) tool = RegisterTool s tool).
Proof.
  unfold RegisterTool. cbn [tools serverInfo]. repeat split.
  - apply lookup_insert_eq.
  - intros key Hk. apply lookup_insert_ne. congruence.
  - intros earlier ->. rewrite insert_insert_eq. reflexivity.
Qed.

(** X12 at a second tool named [get_help]. *)
Lemma RegisterTool_lookup_witness :
  RegisterTool (RegisterTool (NewMCPServer "escalator" "1.0.0") (failingTool "get_help"))
    (GetHelpTool_Tool defaultTool)
  = RegisterTool (NewMCPServer "escalator" "1.0.0") (GetHelpTool_Tool defaultTool).
Proof.
  apply (proj2 (proj2 (proj2 (RegisterTool_lookup (NewMCPServer "escalator" "1.0.0")
                                (GetHelpTool_Tool defaultTool))))
           (failingTool "get_help")).
  reflexivity.
Defined.

(** X13: in a registry built from [NewMCPServer] by registrations every
    tool sits under its own name, there are at most as many tools as
    registrations, and the tool registered last is the one found under
    its name. *)
Theorem registerAll_keyedByName name version ts :
  keyedByName (registerAll (NewMCPServer name version) ts) /\
  (size (tools (registerAll (NewMCPServer name version) ts)) <= length ts)%nat /\
  (forall tool,
     tools (registerAll (NewMCPServer name version) (ts ++ [tool])) !! Name tool
     = Some tool).
Proof.
  split; [|split].
  - apply registerAll_keeps_keyedByName. intros key tool H.
    unfold NewMCPServer in H. cbn [tools] in H. rewrite lookup_empty in H. discriminate H.
  - assert (G : forall l s, (size (tools (registerAll s l)) <= size (tools s) + length l)%nat).
    { induction l as [|tool l IH]; intros s; [cbn; lia|].
      cbn [registerAll foldl length]. fold (registerAll (RegisterTool s tool) l).
      specialize (IH (RegisterTool s tool)). unfold RegisterTool in IH at 2.
      cbn [tools] in IH.
      destruct (tools s !! Name tool) eqn:E.
      - rewrite map_size_insert_Some in IH by eauto. lia.
      - rewrite map_size_insert_None in IH by exact E. lia. }
    specialize (G ts (NewMCPServer name version)).
    unfold NewMCPServer in G at 2. cbn [tools] in G. rewrite map_size_empty in G. lia.
  - intros tool. unfold registerAll. rewrite foldl_app. cbn [foldl].
    unfold RegisterTool at 1. cbn [tools]. apply lookup_insert_eq.
Qed.

Lemma listedTools_HandleToolsList s :
  listedTools (HandleToolsList s) = toolEntry <$> (map_to_list (tools s)).*2.
Proof.
  unfold listedTools, HandleToolsList. rewrite lookup_singleton_eq.
  rewrite <- list_fmap_compose. reflexivity.
Qed.

(** X14: the answer to [tools/list] holds one entry per registered tool
    and nothing else: name, description and schema of each tool of the
    registry, each key once. *)
Theorem HandleToolsList_lists_registry s :
  length (listedTools (HandleToolsList s)) = size (tools s) /\
  (forall entry,
     entry ∈ listedTools (HandleToolsList s) <->
     exists key tool, tools s !! key = Some tool /\ entry = toolEntry tool).
Proof.
  rewrite listedTools_HandleToolsList. split.
  - rewrite !length_fmap. apply length_map_to_list.
  - intros entry. rewrite list_elem_of_fmap. split.
    + intros (tool & -> & Hin). apply list_elem_of_fmap in Hin as ([key tool'] & -> & Hin).
      apply elem_of_map_to_list in Hin. eauto.
    + intros (key & tool & Hl & ->). exists tool. split; [reflexivity|].
      apply list_elem_of_fmap. exists (key, tool). split; [reflexivity|].
      apply elem_of_map_to_list, Hl.
Qed.

(** X15: a fresh server lists no tool (an empty array), and after one
    registration it lists that tool and no other. *)
Theorem HandleToolsList_after_registration name version tool :
  HandleToolsList (NewMCPServer name version) = {[ "tools" := VArray [] ]} /\
  HandleToolsList (RegisterTool (NewMCPServer name version) tool)
  = {[ "tools" := VArray [toolEntry tool] ]}.
Proof.
  unfold HandleToolsList, NewMCPServer, RegisterTool. cbn [tools]. split.
  - rewrite map_to_list_empty. reflexivity.
  - rewrite insert_empty, map_to_list_singleton. reflexivity.
Qed.

(** X16: the answer to [initialize] carries the protocol version
    2025-03-26 and the name and version the server was created with,
    whatever tools were registered since. *)
Theorem HandleInitialize_of_server name version ts :
  HandleInitialize (registerAll (NewMCPServer name version) ts)
  = {[ "protocolVersion" := VString "2025-03-26";
       "capabilities" := VObject {[ "tools" := VObject ∅ ]};
       "serverInfo" := VObject {[ "name" := VString name;
                                  "version" := VString version ]} ]}.
Proof.
  unfold HandleInitialize. rewrite registerAll_serverInfo.
  unfold NewMCPServer. cbn [serverInfo].
  rewrite fmap_insert, map_fmap_singleton. reflexivity.
Qed.

(* ===================================================================== *)
(** ** More on the dispatcher *)
(* ===================================================================== *)

Section MoreDispatcherProperties.

Variable json_Unmarshal_callParams : RawMessage -> error + callParams.

(** [ProcessRequest] on [tools/call], up to the call of
    [HandleToolsCall]. *)
Lemma ProcessRequest_tools_call s req w :
  JsonRPCRequest.Method req = "tools/call" ->
  ProcessRequest json_Unmarshal_callParams s req w
  = match HandleToolsCall json_Unmarshal_callParams s (JsonRPCRequest.Params req)
            (atDispatch req w) with
    | (Ok (_, Some e), w1) => (Ok (responseTo req None (Some (VObject e))), w1)
    | (Ok (result, None), w1) => (Ok (responseTo req (mapInterface result) None), w1)
    | (Panic msg, w1) => (Panic msg, w1)
    end.
Proof.
  intros Hm. unfold ProcessRequest, atDispatch, requestLog, withLog.
  rewrite Hm. cbn [String.eqb Ascii.eqb Bool.eqb andb].
  unfold bind at 1, time_Now. unfold bind at 1, log_Printf. cbv beta iota.
  unfold bind at 1, log_Println, log_Printf. cbv beta iota.
  unfold bind at 1.
  cbn [now files environ upstream opened requests slept logged].
  rewrite <- app_assoc. cbn [app].
  match goal with |- context [HandleToolsCall _ s ?p ?w0] =>
    destruct (HandleToolsCall json_Unmarshal_callParams s p w0)
      as [[[result [e|]]|msg] w1] end; reflexivity.
Qed.

(** X17: a method other than [initialize], [tools/list] and [tools/call]
    is answered with the protocol error -32601 "Method not found", no
    result and the request's id; nothing happens but two log lines. *)
Theorem ProcessRequest_method_not_found s req w :
  JsonRPCRequest.Method req <> "initialize" ->
  JsonRPCRequest.Method req <> "tools/list" ->
  JsonRPCRequest.Method req <> "tools/call" ->
  ProcessRequest json_Unmarshal_callParams s req w
  = (Ok (responseTo req None (Some (VObject methodNotFoundError))),
     withLog w [requestLog req w;
                {| logFormat := "Unknown method: %s";
                   logArgs := [LStr (JsonRPCRequest.Method req)] |}]).
Proof.
  intros H1 H2 H3. apply String.eqb_neq in H1, H2, H3.
  unfold ProcessRequest. rewrite H1, H2, H3.
  unfold bind, time_Now, log_Printf, ret, withLog, requestLog, responseTo. cbn.
  rewrite <- app_assoc. reflexivity.
Qed.

(** X18: a [tools/call] whose params do not decode is answered with the
    protocol error -32602 "Invalid params" and no result; no tool is
    looked up or called. *)
Theorem ProcessRequest_invalid_params s req w err :
  JsonRPCRequest.Method req = "tools/call" ->
  json_Unmarshal_callParams (JsonRPCRequest.Params req) = inl err ->
  ProcessRequest json_Unmarshal_callParams s req w
  = (Ok (responseTo req None (Some (VObject invalidParamsError))),
     withLog w [requestLog req w;
                {| logFormat := "Handling tools/call"; logArgs := [] |};
                {| logFormat := "Failed to parse tools/call params: %v";
                   logArgs := [LErr err] |}]).
Proof.
  intros Hm Hp. rewrite (ProcessRequest_tools_call s req w Hm).
  unfold HandleToolsCall. rewrite Hp.
  unfold bind, log_Printf, ret, atDispatch, withLog. cbn.
  rewrite <- app_assoc. reflexivity.
Qed.

(** X19: when the tool called by [tools/call] fails, the response is
    not a protocol error: it carries a result with the content the tool
    returned and [isError] true, and the failure is logged; when the tool
    succeeds the result holds the content only. *)
Theorem ProcessRequest_tool_outcome_in_result s req w cp tool content w1 :
  JsonRPCRequest.Method req = "tools/call" ->
  json_Unmarshal_callParams (JsonRPCRequest.Params req) = inr cp ->
  tools s !! cp_Name cp = Some tool ->
  (forall e,
     Call tool (cp_Arguments cp) (atDispatch req w) = (Ok (content, Some e), w1) ->
     ProcessRequest json_Unmarshal_callParams s req w
     = (Ok (responseTo req
              (Some (VObject {[ "content" := contentValue content;
                                "isError" := VBool true ]})) None),
        withLog w1 [{| logFormat := "Tool call failed: %v"; logArgs := [LErr e] |}])) /\
  (Call tool (cp_Arguments cp) (atDispatch req w) = (Ok (content, None), w1) ->
   ProcessRequest json_Unmarshal_callParams s req w
   = (Ok (responseTo req (Some (VObject {[ "content" := contentValue content ]})) None),
      w1)).
Proof.
  intros Hm Hp Ht. rewrite (ProcessRequest_tools_call s req w Hm).
  unfold HandleToolsCall. rewrite Hp, Ht. unfold bind at 1 3. split.
  - intros e ->. reflexivity.
  - intros ->. reflexivity.
Qed.

(** The response of [ProcessRequest], for any method. *)
Lemma ProcessRequest_response s req w :
  toolsReturn s ->
  exists resp w',
    ProcessRequest json_Unmarshal_callParams s req w = (Ok resp, w') /\
    JsonRPCResponse.ID resp = JsonRPCRequest.ID req /\
    JsonRPCResponse.Jsonrpc resp = "2.0" /\
    resultXorError resp.
Proof.
  intros Ht. unfold resultXorError.
  destruct (String.eqb_spec (JsonRPCRequest.Method req) "tools/call") as [Hm|Hm].
  - rewrite (ProcessRequest_tools_call s req w Hm).
    destruct (HandleToolsCall_one_of json_Unmarshal_callParams s
                (JsonRPCRequest.Params req) (atDispatch req w) Ht)
      as (result & errorResp & w1 & -> & [[Hr ->]|[-> He]]).
    + destruct result as [fields|]; [|congruence].
      do 2 eexists. split; [reflexivity|]. cbn. repeat split. left. easy.
    + destruct errorResp as [e|]; [|congruence].
      do 2 eexists. split; [reflexivity|]. cbn. repeat split. right. easy.
  - apply String.eqb_neq in Hm. unfold ProcessRequest. rewrite Hm.
    unfold bind, time_Now, log_Println, log_Printf, ret.
    destruct (String.eqb _ "initialize"); [|destruct (String.eqb _ "tools/list")];
      do 2 eexists; (split; [reflexivity|]); cbn; repeat split;
      (left; easy) || (right; easy).
Qed.

(** X20: whatever the method, when the registered tools return,
    [ProcessRequest] returns a response with the request's id, version
    "2.0" and exactly one of result and error. *)
Theorem ProcessRequest_every_method s req w :
  toolsReturn s ->
  exists resp w',
    ProcessRequest json_Unmarshal_callParams s req w = (Ok resp, w') /\
    JsonRPCResponse.ID resp = JsonRPCRequest.ID req /\
    JsonRPCResponse.Jsonrpc resp = "2.0" /\
    resultXorError resp.
Proof. exact (ProcessRequest_response s req w). Qed.

(** X21: [initialize] and [tools/list] are answered from the registry
    alone: the result is what [HandleInitialize] or [HandleToolsList]
    returns, and nothing happens but two log lines, whatever the tools
    are: no tool is called. *)
Theorem ProcessRequest_without_tool_call s req w :
  (JsonRPCRequest.Method req = "initialize" ->
   ProcessRequest json_Unmarshal_callParams s req w
   = (Ok (responseTo req (Some (VObject (HandleInitialize s))) None),
      withLog w [requestLog req w;
                 {| logFormat := "Handling initialize"; logArgs := [] |}])) /\
  (JsonRPCRequest.Method req = "tools/list" ->
   ProcessRequest json_Unmarshal_callParams s req w
   = (Ok (responseTo req (Some (VObject (HandleToolsList s))) None),
      withLog w [requestLog req w;
                 {| logFormat := "Handling tools/list"; logArgs := [] |}])).
Proof.
  split; intros Hm; unfold ProcessRequest, requestLog; rewrite Hm;
    cbn [String.eqb Ascii.eqb Bool.eqb andb];
    unfold bind, time_Now, log_Println, log_Printf, ret, withLog, responseTo; cbn;
    rewrite <- app_assoc; reflexivity.
Qed.

(** X22: a [tools/call] of a registered [GetHelpTool] without its
    required fields is answered with a result, not a protocol error: the
    result holds the missing-fields text block and [isError] true. *)
Theorem ProcessRequest_get_help_missing_fields s req w cp t :
  JsonRPCRequest.Method req = "tools/call" ->
  json_Unmarshal_callParams (JsonRPCRequest.Params req) = inr cp ->
  tools s !! cp_Name cp = Some (GetHelpTool_Tool t) ->
  ~ (exists q sm, validFields (cp_Arguments cp) q sm) ->
  ProcessRequest json_Unmarshal_callParams s req w
  = (Ok (responseTo req
           (Some (VObject
              {[ "content" :=
                   VArray [VObject (textBlock
                      "Error: Missing required fields: question and summary")];
                 "isError" := VBool true ]})) None),
     withLog (atDispatch req w)
       [{| logFormat := "Tool call failed: %v";
           logArgs := [LErr (errorString "missing required fields")] |}]).
Proof.
  intros Hm Hp Ht Hn. rewrite (ProcessRequest_tools_call s req w Hm).
  unfold HandleToolsCall. rewrite Hp, Ht. unfold bind at 1.
  cbn [Call GetHelpTool_Tool].
  rewrite Call_rejects.
  - reflexivity.
  - destruct (fields_valid_or_missing (cp_Arguments cp)) as [Hv|Hmiss];
      [contradiction|exact Hmiss].
Qed.

End MoreDispatcherProperties.

(** X20 at a method the server does not know. *)
Lemma ProcessRequest_every_method_witness :
  exists resp w',
    ProcessRequest testUnmarshal getHelpServer (unknownMethod 4) answeringWorld
    = (Ok resp, w') /\
    JsonRPCResponse.ID resp = 4 /\
    JsonRPCResponse.Jsonrpc resp = "2.0" /\
    resultXorError resp.
Proof.
  apply (ProcessRequest_every_method testUnmarshal getHelpServer (unknownMethod 4)
           answeringWorld).
  exact getHelpServer_toolsReturn.
Defined.

(** X17 at [resources/list]. *)
Lemma ProcessRequest_method_not_found_witness :
  ProcessRequest testUnmarshal getHelpServer (unknownMethod 4) answeringWorld
  = (Ok (responseTo (unknownMethod 4) None (Some (VObject methodNotFoundError))),
     withLog answeringWorld
       [requestLog (unknownMethod 4) answeringWorld;
        {| logFormat := "Unknown method: %s"; logArgs := [LStr "resources/list"] |}]).
Proof.
  apply (ProcessRequest_method_not_found testUnmarshal getHelpServer (unknownMethod 4)
           answeringWorld); discriminate.
Defined.

(** X18 at params cut short. *)
Lemma ProcessRequest_invalid_params_witness :
  ProcessRequest testUnmarshal getHelpServer (brokenCall 5) answeringWorld
  = (Ok (responseTo (brokenCall 5) None (Some (VObject invalidParamsError))),
     withLog answeringWorld
       [requestLog (brokenCall 5) answeringWorld;
        {| logFormat := "Handling tools/call"; logArgs := [] |};
        {| logFormat := "Failed to parse tools/call params: %v";
           logArgs := [LErr (SyntaxError "invalid character")] |}]).
Proof.
  apply (ProcessRequest_invalid_params testUnmarshal getHelpServer (brokenCall 5)
           answeringWorld (SyntaxError "invalid character")).
  - reflexivity.
  - vm_compute. reflexivity.
Defined.

(** X19 at a server whose tool fails with one block. *)
Lemma ProcessRequest_tool_outcome_in_result_witness :
  ProcessRequest testUnmarshal failingServer (toolsCall 6 "get_help") answeringWorld
  = (Ok (responseTo (toolsCall 6 "get_help")
           (Some (VObject {[ "content" := contentValue [textBlock "partial"];
                             "isError" := VBool true ]})) None),
     withLog (atDispatch (toolsCall 6 "get_help") answeringWorld)
       [{| logFormat := "Tool call failed: %v";
           logArgs := [LErr (errorString "boom")] |}]).
Proof.
  apply (proj1 (ProcessRequest_tool_outcome_in_result testUnmarshal failingServer
                  (toolsCall 6 "get_help") answeringWorld
                  {| cp_Name := "get_help"; cp_Arguments := testArguments |}
                  (failingTool "get_help") [textBlock "partial"]
                  (atDispatch (toolsCall 6 "get_help") answeringWorld)
                  eq_refl ltac:(vm_compute; reflexivity) ltac:(vm_compute; reflexivity))
           (errorString "boom")).
  reflexivity.
Defined.

(** X21 at [tools/list] on a server whose tool would panic. *)
Lemma ProcessRequest_without_tool_call_witness :
  ProcessRequest testUnmarshal panickingServer (toolsList 2) answeringWorld
  = (Ok (responseTo (toolsList 2) (Some (VObject (HandleToolsList panickingServer))) None),
     withLog answeringWorld
       [requestLog (toolsList 2) answeringWorld;
        {| logFormat := "Handling tools/list"; logArgs := [] |}]).
Proof.
  apply (proj2 (ProcessRequest_without_tool_call testUnmarshal panickingServer
                  (toolsList 2) answeringWorld)).
  reflexivity.
Defined.

(** X22 at a call of [get_help] with a summary only. *)
Lemma ProcessRequest_get_help_missing_fields_witness :
  ProcessRequest summaryOnlyUnmarshal getHelpServer (summaryOnlyCall 8) answeringWorld
  = (Ok (responseTo (summaryOnlyCall 8)
           (Some (VObject
              {[ "content" :=
                   VArray [VObject (textBlock
                      "Error: Missing required fields: question and summary")];
                 "isError" := VBool true ]})) None),
     withLog (atDispatch (summaryOnlyCall 8) answeringWorld)
       [{| logFormat := "Tool call failed: %v";
           logArgs := [LErr (errorString "missing required fields")] |}]).
Proof.
  apply (ProcessRequest_get_help_missing_fields summaryOnlyUnmarshal getHelpServer
           (summaryOnlyCall 8) answeringWorld
           {| cp_Name := "get_help"; cp_Arguments := summaryOnly |} defaultTool).
  - reflexivity.
  - vm_compute. reflexivity.
  - vm_compute. reflexivity.
  - intros (q & sm & Hq & _). vm_compute in Hq. discriminate Hq.
Defined.

(* ===================================================================== *)
(** ** More on the stdio loop *)
(* ===================================================================== *)

Section MoreStdioProperties.

Variable json_Unmarshal_callParams : RawMessage -> error + callParams.



(** X24: a tool that panics is not caught: [ProcessRequest] panics with
    it, and the stdio loop, when that request is the first value of the
    input, ends in the same panic, in the world the tool left, for every
    continuation of the input, every standard output and every number of
    turns allowed: it does not return and does not go on to later
    requests. *)
Theorem tool_panic_stops_the_loop s req cp tool msg w1 stdin stdout w fuel :
  JsonRPCRequest.Method req = "tools/call" ->
  json_Unmarshal_callParams (JsonRPCRequest.Params req) = inr cp ->
  tools s !! cp_Name cp = Some tool ->
  Call tool (cp_Arguments cp) (atDispatch req w) = (Panic msg, w1) ->
  ProcessRequest json_Unmarshal_callParams s req w = (Panic msg, w1) /\
  (stdin 0%nat = DecodeOK req ->
   RunStdio json_Unmarshal_callParams (S fuel) s stdin stdout w = (Panic msg, w1)).
Proof.
  intros Hm Hp Ht Hc.
  assert (P : ProcessRequest json_Unmarshal_callParams s req w = (Panic msg, w1)).
  { rewrite (ProcessRequest_tools_call json_Unmarshal_callParams s req w Hm).
    unfold HandleToolsCall. rewrite Hp, Ht. unfold bind at 1. rewrite Hc. reflexivity. }
  split; [exact P|].
  intros H0. unfold RunStdio. rewrite RunStdio_loop_step. cbv zeta.
  cbn [NewDecoder stream offset]. rewrite H0, P. reflexivity.
Qed.

End MoreStdioProperties.


(** X24 at a server whose tool panics. *)
Lemma tool_panic_stops_the_loop_witness :
  ProcessRequest testUnmarshal panickingServer (toolsCall 1 "get_help") answeringWorld
  = (Panic "interface conversion: interface {} is nil, not string",
     atDispatch (toolsCall 1 "get_help") answeringWorld) /\
  (panicThenRequest 0%nat = DecodeOK (toolsCall 1 "get_help") ->
   RunStdio testUnmarshal 3 panickingServer panicThenRequest stdoutOK answeringWorld
   = (Panic "interface conversion: interface {} is nil, not string",
      atDispatch (toolsCall 1 "get_help") answeringWorld)).
Proof.
  apply (tool_panic_stops_the_loop testUnmarshal panickingServer (toolsCall 1 "get_help")
           {| cp_Name := "get_help"; cp_Arguments := testArguments |}
           (panickingTool "get_help")
           "interface conversion: interface {} is nil, not string"
           (atDispatch (toolsCall 1 "get_help") answeringWorld)
           panicThenRequest stdoutOK answeringWorld 2).
  - reflexivity.
  - vm_compute. reflexivity.
  - vm_compute. reflexivity.
  - reflexivity.
Defined.

(* ===================================================================== *)
(** ** More on the HTTP handler *)
(* ===================================================================== *)

Section MoreHTTPProperties.

Variable json_Decode_arguments : string -> error + gmap string value.
Variable json_Marshal : value -> string.

(** X25: a request that is not a POST, or whose body does not decode, is
    refused before the registry is looked at: nothing happens but two log
    lines, so no tool is called whatever the tools are.  (The log line
    for a method that is not POST says GET whatever the method was.) *)
Theorem HandleHTTP_refuses_before_tool s r w :
  (http.Method r <> "POST" ->
   HandleHTTP json_Decode_arguments json_Marshal s http.NewRecorder r w
   = (Ok (http.Error http.NewRecorder "Method not allowed" 405),
      withLog w [{| logFormat := "Got HTTP request"; logArgs := [] |};
                 {| logFormat := "Called with a GET"; logArgs := [] |}])) /\
  (forall err,
     http.Method r = "POST" -> json_Decode_arguments (http.Body r) = inl err ->
     HandleHTTP json_Decode_arguments json_Marshal s http.NewRecorder r w
     = (Ok (http.Error http.NewRecorder "malformed request" 400),
        withLog w [{| logFormat := "Got HTTP request"; logArgs := [] |};
                   {| logFormat := "Couldn't decode the JSON"; logArgs := [] |}])).
Proof.
  unfold HandleHTTP, bind, log_Println, log_Printf, ret, withLog. cbv beta iota. split.
  - intros Hm. apply String.eqb_neq in Hm. unfold http.MethodPost. rewrite Hm.
    cbn. rewrite <- app_assoc. reflexivity.
  - intros err -> Hd. rewrite Hd. cbn. rewrite <- app_assoc. reflexivity.
Qed.

(** X26: a POST whose arguments lack a required field is answered by
    the [GetHelpTool] server with 503 and the fixed unavailable text, as
    for any other failure of the tool (not with a 4xx); no file is opened
    and no upstream call made. *)
Theorem HandleHTTP_missing_fields_is_503 s t r w arguments :
  http.Method r = "POST" ->
  json_Decode_arguments (http.Body r) = inr arguments ->
  tools s !! "get_help" = Some (GetHelpTool_Tool t) ->
  ~ (exists q sm, validFields arguments q sm) ->
  HandleHTTP json_Decode_arguments json_Marshal s http.NewRecorder r w
  = (Ok (http.Error http.NewRecorder (jsonMember "error" unavailableText) 503),
     withLog w [{| logFormat := "Got HTTP request"; logArgs := [] |};
                {| logFormat := "Tool call failed: %v";
                   logArgs := [LErr (errorString "missing required fields")] |}]).
Proof.
  intros Hm Hd Ht Hn.
  unfold HandleHTTP. rewrite Hm, Hd, Ht.
  cbn [String.eqb Ascii.eqb Bool.eqb negb andb http.MethodPost].
  unfold bind at 1, log_Println, log_Printf. cbv beta iota.
  unfold bind at 1. cbn [Call GetHelpTool_Tool].
  rewrite Call_rejects.
  - unfold bind, log_Printf, ret, withLog, missingFieldsReply. cbn.
    rewrite <- app_assoc. reflexivity.
  - destruct (fields_valid_or_missing arguments) as [Hv|Hmiss];
      [contradiction|exact Hmiss].
Qed.

(** X27: with a [GetHelpTool] registered as [get_help] the handler
    always returns (the type assertion on the text block cannot fail),
    and its reply is one of four: 405, 400, 503 with the fixed
    unavailable text, or 200 with the JSON encoding of an answer; a 200
    with an empty body does not occur. *)
Theorem HandleHTTP_get_help_replies s t r w :
  tools s !! "get_help" = Some (GetHelpTool_Tool t) ->
  exists rw w',
    HandleHTTP json_Decode_arguments json_Marshal s http.NewRecorder r w = (Ok rw, w') /\
    (reply rw = (405, plainText, "Method not allowed" ++ nl) \/
     reply rw = (400, plainText, "malformed request" ++ nl) \/
     reply rw = (503, plainText, jsonMember "error" unavailableText ++ nl) \/
     exists text,
       reply rw = (200, Some "application/json",
                   json_Marshal (VObject {[ "answer" := VString text ]}) ++ nl)).
Proof.
  intros Ht. unfold HandleHTTP. rewrite Ht.
  unfold bind at 1, log_Println, log_Printf. cbv beta iota.
  destruct (negb (String.eqb (http.Method r) http.MethodPost)).
  { unfold bind, log_Printf, ret. do 2 eexists. split; [reflexivity|]. left. reflexivity. }
  destruct (json_Decode_arguments (http.Body r)) as [err|arguments].
  { unfold bind, log_Printf, ret. do 2 eexists. split; [reflexivity|].
    right. left. reflexivity. }
  unfold bind at 1. cbn [Call GetHelpTool_Tool].
  match goal with |- context [GetHelpTool_Call t arguments ?w0] =>
    destruct (GetHelpTool_Call_text_block t arguments w0)
      as (text & [e|] & w1 & -> & _) end.
  - unfold bind, log_Printf, ret. do 2 eexists. split; [reflexivity|].
    right. right. left. reflexivity.
  - assert (Hty : textBlock text !! "type" = Some (VString "text")).
    { unfold textBlock. apply lookup_insert_eq. }
    rewrite Hty, textBlock_text. cbn [isString String.eqb Ascii.eqb Bool.eqb andb].
    unfold ret. do 2 eexists. split; [reflexivity|].
    right. right. right. exists text. reflexivity.
Qed.

(** X28: end to end over HTTP: a POST with valid fields, a readable
    summary file, a prompt within the budget and an upstream whose first
    attempt returns a choice is answered with 200 and the JSON encoding of
    [{"answer": c}], [c] the content of that choice. *)
Theorem HandleHTTP_answers_with_first_choice
    s t r w arguments q sm content d resp choice rest :
  http.Method r = "POST" ->
  json_Decode_arguments (http.Body r) = inr arguments ->
  tools s !! "get_help" = Some (GetHelpTool_Tool t) ->
  validFields arguments q sm ->
  files w (summaryFile t) = inr (inr content) ->
  len content + len q + len (relevantCodeOf arguments) <= 79882 ->
  attempt t (callContext w) (rendered content q (relevantCodeOf arguments))
    (atUpstreamCall t (atToolCall w)) = (d, inr resp) ->
  Choices resp = choice :: rest ->
  exists rw w',
    HandleHTTP json_Decode_arguments json_Marshal s http.NewRecorder r w = (Ok rw, w') /\
    reply rw = (200, Some "application/json",
                json_Marshal (VObject {[ "answer" := VString (Content (Message choice)) ]})
                ++ nl) /\
    length (requests w') = S (length (requests w)) /\
    slept w' = slept w.
Proof.
  intros Hm Hd Ht Hv Hf Hlen Ha Hc.
  unfold HandleHTTP. rewrite Hm, Hd, Ht.
  cbn [String.eqb Ascii.eqb Bool.eqb negb andb http.MethodPost].
  unfold bind at 1, log_Println, log_Printf. cbv beta iota.
  unfold bind at 1. cbn [Call GetHelpTool_Tool].
  change (mkWorld (now w) (files w) (environ w) (upstream w) (opened w)
            (requests w) (slept w)
            (logged w ++ [{| logFormat := "Got HTTP request"; logArgs := [] |}]))
    with (atToolCall w).
  rewrite (Call_past_validation t arguments q sm (atToolCall w) Hv).
  change (files (atToolCall w)) with (files w). rewrite Hf.
  rewrite buildPrompt_by_size. apply Z.ltb_ge in Hlen. rewrite Hlen.
  change (callContext (atToolCall w)) with (callContext w).
  rewrite askOpenAI_unrolled, Ha. unfold answerOf. rewrite Hc.
  assert (Hty : textBlock (Content (Message choice)) !! "type" = Some (VString "text")).
  { unfold textBlock. apply lookup_insert_eq. }
  rewrite Hty, textBlock_text. cbn [isString String.eqb Ascii.eqb Bool.eqb andb].
  unfold ret. do 2 eexists. split; [reflexivity|]. split; [reflexivity|].
  unfold afterAttempt, CreateChatCompletion, withLog. cbn.
  rewrite length_app. cbn. split; [lia|reflexivity].
Qed.

End MoreHTTPProperties.

(** X25 at a GET to a server whose tool would panic. *)
Lemma HandleHTTP_refuses_before_tool_witness :
  HandleHTTP testDecode plainMarshal panickingServer http.NewRecorder getRequest
    answeringWorld
  = (Ok (http.Error http.NewRecorder "Method not allowed" 405),
     withLog answeringWorld [{| logFormat := "Got HTTP request"; logArgs := [] |};
                             {| logFormat := "Called with a GET"; logArgs := [] |}]).
Proof.
  apply (proj1 (HandleHTTP_refuses_before_tool testDecode plainMarshal panickingServer
                  getRequest answeringWorld)).
  discriminate.
Defined.

(** X26 at a body with a summary only. *)
Lemma HandleHTTP_missing_fields_is_503_witness :
  HandleHTTP summaryOnlyDecode plainMarshal getHelpServer http.NewRecorder
    {| http.Method := "POST"; http.Body := summaryOnlyText |} answeringWorld
  = (Ok (http.Error http.NewRecorder (jsonMember "error" unavailableText) 503),
     withLog answeringWorld
       [{| logFormat := "Got HTTP request"; logArgs := [] |};
        {| logFormat := "Tool call failed: %v";
           logArgs := [LErr (errorString "missing required fields")] |}]).
Proof.
  apply (HandleHTTP_missing_fields_is_503 summaryOnlyDecode plainMarshal getHelpServer
           defaultTool {| http.Method := "POST"; http.Body := summaryOnlyText |}
           answeringWorld summaryOnly).
  - reflexivity.
  - vm_compute. reflexivity.
  - vm_compute. reflexivity.
  - intros (q & sm & Hq & _). vm_compute in Hq. discriminate Hq.
Defined.

(** X27 at the server [main] builds. *)
Lemma HandleHTTP_get_help_replies_witness :
  exists rw w',
    HandleHTTP testDecode plainMarshal getHelpServer http.NewRecorder
      {| http.Method := "POST"; http.Body := testArgumentsText |} answeringWorld
    = (Ok rw, w') /\
    (reply rw = (405, plainText, "Method not allowed" ++ nl) \/
     reply rw = (400, plainText, "malformed request" ++ nl) \/
     reply rw = (503, plainText, jsonMember "error" unavailableText ++ nl) \/
     exists text,
       reply rw = (200, Some "application/json",
                   plainMarshal (VObject {[ "answer" := VString text ]}) ++ nl)).
Proof.
  apply (HandleHTTP_get_help_replies testDecode plainMarshal getHelpServer defaultTool
           {| http.Method := "POST"; http.Body := testArgumentsText |} answeringWorld).
  vm_compute. reflexivity.
Defined.

(** X28 at the test arguments and an upstream that answers. *)
Lemma HandleHTTP_answers_with_first_choice_witness :
  exists rw w',
    HandleHTTP testDecode plainMarshal getHelpServer http.NewRecorder
      {| http.Method := "POST"; http.Body := testArgumentsText |} answeringWorld
    = (Ok rw, w') /\
    reply rw = (200, Some "application/json",
                plainMarshal (VObject {[ "answer" := VString "Use table-driven tests." ]})
                ++ nl) /\
    length (requests w') = S (length (requests answeringWorld)) /\
    slept w' = slept answeringWorld.
Proof.
  apply (HandleHTTP_answers_with_first_choice testDecode plainMarshal getHelpServer
           defaultTool {| http.Method := "POST"; http.Body := testArgumentsText |}
           answeringWorld testArguments "How do I test this?" "Test project"
           "MCP Escalator" (1 * Second)
           {| Choices := [{| Message := {| Role := "assistant";
                                           Content := "Use table-driven tests." |} |}] |}
           {| Message := {| Role := "assistant"; Content := "Use table-driven tests." |} |}
           []).
  - reflexivity.
  - vm_compute. reflexivity.
  - vm_compute. reflexivity.
  - repeat split; try discriminate; vm_compute; reflexivity.
  - reflexivity.
  - vm_compute. discriminate.
  - vm_compute. reflexivity.
  - reflexivity.
Defined.
